(** * db01_setup.py: the database bootstrap script

    A shallow embedding of [src/db01_setup.py] and of the SQL text the same
    file carries (lines 67-92), with the properties that the specification
    states about them.

    Layout:
    - Python: exceptions, results and the state-and-error monad that the
      two functions of the script run in;
    - [Engine]: the interface of [sqlite3.Connection] that the script uses,
      kept abstract so that the control-flow theorems hold for every engine;
    - the world (file system, connection objects, log, call trace) and the
      library calls the script makes ([pathlib], [open], [sqlite3], logger);
    - [execute_sql_file] and [main], line by line;
    - [MiniSQLite]: an executable model of the SQLite statements that the
      scripts are written in, an instance of [Engine];
    - the SQL text of the source file, and the observations that the
      theorems are stated with;
    - the theorems: first for every engine ([ScriptFacts],
      [ScriptProperties]), then for the scripts of the repository on
      MiniSQLite ([RepositoryFacts], [RepositoryProperties]).

    The library calls are those of CPython 3.11 and of its [sqlite3]
    module. The process is taken to run as the owner of every entry of
    the file system, and not as the superuser; the directory that holds
    the script can be searched, and no journal of an interrupted session
    lies next to the database file. *)

From Stdlib Require Import ZArith NArith String Ascii List Lia DecimalString.
From stdpp Require Import base option list gmap strings.

Set Default Proof Using "Type".
Local Open Scope string_scope.
Local Open Scope list_scope.

(* ===================================================================== *)
(** ** Python: exceptions and the state-and-error monad                   *)
(* ===================================================================== *)

(** The exception classes that the library calls of the script raise.
    Every one of them derives from [Exception], so the two handlers
    [except Exception as e] of the script catch each of them. *)
Inductive exn_class :=
  | FileNotFoundError
  | FileExistsError
  | IsADirectoryError
  | NotADirectoryError
  | PermissionError
  | UnicodeDecodeError
  | OperationalError
  | IntegrityError
  | DatabaseError
  | ProgrammingError
  | UnboundLocalError.

(** An exception object: its class and the text that [str(e)] gives. *)
Record exn := Exn { exn_cls : exn_class; exn_str : string }.

Inductive result (A : Type) :=
  | Ok (a : A)
  | Raise (e : exn).
Arguments Ok {A} a.
Arguments Raise {A} e.

Definition is_ok {A} (r : result A) : bool :=
  match r with Ok _ => true | Raise _ => false end.

(** A computation over a state [S] that returns or raises. *)
Definition M (S A : Type) : Type := S → result A * S.

Definition ret {S A} (a : A) : M S A := λ s, (Ok a, s).
Definition raise {S A} (e : exn) : M S A := λ s, (Raise e, s).
Definition bind {S A B} (m : M S A) (k : A → M S B) : M S B :=
  λ s, match m s with
       | (Ok a, s') => k a s'
       | (Raise e, s') => (Raise e, s')
       end.

Notation "x <~ m ;; k" := (bind m (λ x, k))
  (at level 20, m at level 99, k at level 200, only parsing).
Notation "m ;;; k" := (bind m (λ _, k))
  (at level 100, k at level 200, right associativity, only parsing).

(** [try: body / except Exception as e: handler e]. *)
Definition try_except {S A} (body : M S A) (handler : exn → M S A) : M S A :=
  λ s, match body s with
       | (Ok a, s') => (Ok a, s')
       | (Raise e, s') => handler e s'
       end.

(** [try: body / finally: fin]: [fin] runs on both exits; when it raises,
    its exception replaces the outcome of [body]. *)
Definition try_finally {S A} (body : M S A) (fin : M S unit) : M S A :=
  λ s, match body s with
       | (r, s') =>
           match fin s' with
           | (Ok _, s'') => (r, s'')
           | (Raise e, s'') => (Raise e, s'')
           end
       end.

(** [try / except Exception as e / finally]. *)
Definition try_except_finally {S A}
    (body : M S A) (handler : exn → M S A) (fin : M S unit) : M S A :=
  try_finally (try_except body handler) fin.

(* ===================================================================== *)
(** ** The engine behind [sqlite3.Connection]                             *)
(* ===================================================================== *)

(** What the script needs of the storage engine: the content of a database
    file, the state of an open session on it, and the three operations that
    [execute_sql_file] reaches through the connection ([executescript], and
    [commit] / [rollback] through the connection's context manager).
    - [sess_executescript] answers a script on a database; [sess_foreign]
      answers it on a file that is not a database, which the engine finds
      out only at the first statement that needs the file.
    - [sess_commit] can be refused (a deferred constraint that is still
      violated), and then leaves the transaction open; [sess_rollback]
      is never refused.
    - [sess_attached] lists the other database files that the session
      has attached (ATTACH DATABASE), with the content that it has
      written to each. *)
Class Engine := {
  db : Type;
  session : Type;
  db_empty : db;
  sess_open : db → session;
  sess_committed : session → db;
  sess_executescript : string → session → session * option exn;
  sess_foreign : string → option exn;
  sess_commit : session → session * option exn;
  sess_rollback : session → session;
  sess_attached : session → list (list string * db);
}.

(* ===================================================================== *)
(** ** The world of the script                                            *)
(* ===================================================================== *)

(** [pathlib.Path]: an absolute path as the list of its components. *)
Definition path := list string.

Definition joinpath (p : path) (name : string) : path := p ++ [name].

(** [Path.parent]; the parent of the root is the root. *)
Definition parent (p : path) : path := removelast p.

Fixpoint path_str_aux (p : path) : string :=
  match p with
  | [] => EmptyString
  | c :: p' => "/" +:+ c +:+ path_str_aux p'
  end.

(** [str(path)]. *)
Definition path_str (p : path) : string :=
  match p with
  | [] => "/"
  | _ => path_str_aux p
  end.

Inductive level := INFO | ERROR.

(** A connection object is named by its index in the heap of the world. *)
Definition handle := nat.

(** The calls that leave the process, in the order they are made. *)
Inductive event :=
  | EvMkdir (p : path)
  | EvOpen (p : path)
  | EvConnect (p : path)
  | EvExecutescript (h : handle) (sql : string)
  | EvCommit (h : handle)
  | EvRollback (h : handle)
  | EvClose (h : handle).

Section Script.
Context `{E : Engine}.

Inductive content :=
  | Text (s : string)
  | Database (d : db).

Inductive node :=
  | Dir (mode : N)
  | File (mode : N) (c : content).

Inductive conn_state :=
  | Live (s : session)
  | NotADatabase
  | Closed.

Record connection_obj := Conn { conn_path : path; conn_st : conn_state }.

Record world := World {
  fs : gmap path node;
  umask : N;
  heap : list connection_obj;
  log : list (level * string);
  trace : list event;
}.

Definition set_fs (f : gmap path node → gmap path node) (w : world) : world :=
  World (f (fs w)) (umask w) (heap w) (log w) (trace w).
Definition set_heap (f : list connection_obj → list connection_obj) (w : world) : world :=
  World (fs w) (umask w) (f (heap w)) (log w) (trace w).
Definition add_log (l : level) (msg : string) (w : world) : world :=
  World (fs w) (umask w) (heap w) (log w ++ [(l, msg)]) (trace w).
Definition add_event (ev : event) (w : world) : world :=
  World (fs w) (umask w) (heap w) (log w) (trace w ++ [ev]).

Definition emit (ev : event) : M world unit := λ w, (Ok tt, add_event ev w).

(** *** utils_logger *)

(** Modelled from the spec: [utils_logger.logger] is not part of the source
    file; section 6 has it write informational and error messages. The model
    appends the record to the log of the world and never raises. *)
Definition logger_info (msg : string) : M world unit :=
  λ w, (Ok tt, add_log INFO msg w).
Definition logger_error (msg : string) : M world unit :=
  λ w, (Ok tt, add_log ERROR msg w).

(** *** pathlib and open *)

Definition is_dir (f : gmap path node) (p : path) : bool :=
  match f !! p with Some (Dir _) => true | _ => false end.

(** The permission bits of the owner, who runs the script: read (0o400),
    write (0o200) and, for a directory, search (0o100). *)
Definition readable (mode : N) : bool := N.testbit mode 8.
Definition writable (mode : N) : bool := N.testbit mode 7.
Definition searchable (mode : N) : bool := N.testbit mode 6.

(** Can an entry be reached in the directory of [p], and can one be
    created there? *)
Definition reachable (f : gmap path node) (p : path) : bool :=
  match f !! parent p with
  | Some (Dir pm) => searchable pm
  | _ => false
  end.

Definition creatable (f : gmap path node) (p : path) : bool :=
  match f !! parent p with
  | Some (Dir pm) => writable pm && searchable pm
  | _ => false
  end.

Definition errno_msg (what : string) (p : path) : string :=
  what +:+ ": '" +:+ path_str p +:+ "'".

(** [os.mkdir(p, mode)]. *)
Definition os_mkdir (p : path) (mode : N) : M world unit :=
  emit (EvMkdir p) ;;;
  λ w, match fs w !! p with
       | Some _ => (Raise (Exn FileExistsError (errno_msg "[Errno 17] File exists" p)), w)
       | None =>
           match fs w !! parent p with
           | Some (Dir pm) =>
               if writable pm && searchable pm
               then (Ok tt, set_fs (insert p (Dir (N.ldiff mode (umask w)))) w)
               else (Raise (Exn PermissionError (errno_msg "[Errno 13] Permission denied" p)), w)
           | Some (File _ _) =>
               (Raise (Exn NotADirectoryError (errno_msg "[Errno 20] Not a directory" p)), w)
           | None =>
               (Raise (Exn FileNotFoundError (errno_msg "[Errno 2] No such file or directory" p)), w)
           end
       end.

(** [Path.mkdir(mode=0o777, parents=False, exist_ok=exist_ok)]: a missing
    parent is raised as it is; any other [OSError] is dropped when
    [exist_ok] is set and the path is a directory. *)
Definition Path_mkdir (p : path) (exist_ok : bool) : M world unit :=
  try_except (os_mkdir p 511)
    (λ e, match exn_cls e with
          | FileNotFoundError => raise e
          | _ => λ w, if exist_ok && is_dir (fs w) p then (Ok tt, w) else (Raise e, w)
          end).

(** [open(p, 'r')]: the file object, here the content it will read. The
    directory of the file is taken to be searchable. *)
Definition builtin_open (p : path) : M world content :=
  emit (EvOpen p) ;;;
  λ w, match fs w !! p with
       | None =>
           (Raise (Exn FileNotFoundError (errno_msg "[Errno 2] No such file or directory" p)), w)
       | Some (Dir _) =>
           (Raise (Exn IsADirectoryError (errno_msg "[Errno 21] Is a directory" p)), w)
       | Some (File m c) =>
           if readable m then (Ok c, w)
           else (Raise (Exn PermissionError (errno_msg "[Errno 13] Permission denied" p)), w)
       end.

(** [file.read()] in text mode: the whole content as one string. What
    the bytes of a database file decode to is not modelled: the decoding
    is taken to fail, with a message that stands for the one of Python
    (a database file of zero bytes would read as the empty string). *)
Definition file_read (f : content) : M world string :=
  match f with
  | Text s => ret s
  | Database _ => raise (Exn UnicodeDecodeError "'utf-8' codec can't decode byte")
  end.

(** *** sqlite3 *)

Definition unable_to_open : exn := Exn OperationalError "unable to open database file".
Definition closed_database : exn := Exn ProgrammingError "Cannot operate on a closed database.".
Definition not_a_database : exn := Exn DatabaseError "file is not a database".

Definition new_connection (p : path) (st : conn_state) : M world handle :=
  λ w, (Ok (length (heap w)), set_heap (λ hp, hp ++ [Conn p st]) w).

(** [sqlite3.connect(p)]: opens the file, creating an empty database when
    there is none; the content is looked at only by the first statement.
    A file of zero bytes is an empty database. The directory of the file
    has to be searchable, and writable for the file to be created. A file
    that the owner can read is taken to be writable too: the read-only
    fallback of SQLite is not modelled. *)
Definition sqlite3_connect (p : path) : M world handle :=
  emit (EvConnect p) ;;;
  λ w, match fs w !! parent p with
       | Some (Dir pm) =>
           if searchable pm then
             match fs w !! p with
             | Some (Dir _) => (Raise unable_to_open, w)
             | Some (File m c) =>
                 if readable m then
                   new_connection p
                     match c with
                     | Database d => Live (sess_open d)
                     | Text s =>
                         if String.eqb s EmptyString then Live (sess_open db_empty)
                         else NotADatabase
                     end w
                 else (Raise unable_to_open, w)
             | None =>
                 if writable pm then
                   new_connection p (Live (sess_open db_empty))
                     (set_fs (insert p (File (N.ldiff 420 (umask w)) (Database db_empty))) w)
                 else (Raise unable_to_open, w)
             end
           else (Raise unable_to_open, w)
       | _ => (Raise unable_to_open, w)
       end.

(** What the engine has committed is what the file holds. *)
Definition persist (p : path) (d : db) (f : gmap path node) : gmap path node :=
  match f !! p with
  | Some (File m _) => <[p := File m (Database d)]> f
  | _ => f
  end.

(** An attached database file: written where it is, created where there
    is none and the directory allows it. *)
Definition write_attached (um : N) (qd : path * db) (f : gmap path node)
    : gmap path node :=
  match f !! qd.1 with
  | Some (File m _) => <[qd.1 := File m (Database qd.2)]> f
  | Some (Dir _) => f
  | None =>
      if creatable f qd.1 then <[qd.1 := File (N.ldiff 420 um) (Database qd.2)]> f else f
  end.

Definition update_session (h : handle) (p : path) (s : session) (w : world) : world :=
  set_fs (λ f, foldr (write_attached (umask w)) (persist p (sess_committed s) f)
                 (sess_attached s))
    (set_heap (<[h := Conn p (Live s)]>) w).

(** A handle outside the heap behaves as a closed connection. *)
Definition conn_lookup (h : handle) (w : world) : connection_obj :=
  default (Conn [] Closed) (heap w !! h).

(** [connection.executescript(sql)]. On a file that is not a database the
    statements that do not need the file are accepted. *)
Definition conn_executescript (h : handle) (sql : string) : M world unit :=
  emit (EvExecutescript h sql) ;;;
  λ w, match conn_lookup h w with
       | Conn p (Live s) =>
           match sess_executescript sql s with
           | (s', None) => (Ok tt, update_session h p s' w)
           | (s', Some e) => (Raise e, update_session h p s' w)
           end
       | Conn _ NotADatabase =>
           match sess_foreign sql with
           | None => (Ok tt, w)
           | Some e => (Raise e, w)
           end
       | Conn _ Closed => (Raise closed_database, w)
       end.

(** [connection.commit()]. *)
Definition conn_commit (h : handle) : M world unit :=
  emit (EvCommit h) ;;;
  λ w, match conn_lookup h w with
       | Conn p (Live s) =>
           match sess_commit s with
           | (s', None) => (Ok tt, update_session h p s' w)
           | (s', Some e) => (Raise e, update_session h p s' w)
           end
       | Conn _ NotADatabase => (Ok tt, w)
       | Conn _ Closed => (Raise closed_database, w)
       end.

(** [connection.rollback()]. *)
Definition conn_rollback (h : handle) : M world unit :=
  emit (EvRollback h) ;;;
  λ w, match conn_lookup h w with
       | Conn p (Live s) => (Ok tt, update_session h p (sess_rollback s) w)
       | Conn _ NotADatabase => (Ok tt, w)
       | Conn _ Closed => (Raise closed_database, w)
       end.

(** [connection.close()]: an open transaction is lost; closing twice is
    allowed. *)
Definition conn_close (h : handle) : M world unit :=
  emit (EvClose h) ;;;
  λ w, (Ok tt, set_heap (alter (λ c, Conn (conn_path c) Closed) h) w).

(** [Connection.__enter__]: refused on a closed connection, before the
    body of the [with] block is entered. *)
Definition conn_enter (h : handle) : M world unit :=
  λ w, match conn_lookup h w with
       | Conn _ Closed => (Raise closed_database, w)
       | _ => (Ok tt, w)
       end.

(** [Connection.__exit__] after an exception [e]: the rollback, and [e]
    goes on unless the rollback raises itself. *)
Definition exit_rollback {A} (h : handle) (e : exn) : M world A :=
  λ w, match conn_rollback h w with
       | (Ok _, w') => (Raise e, w')
       | (Raise e', w') => (Raise e', w')
       end.

(** [with connection: body]: the context manager of a connection is
    entered, commits when the body returns and rolls back when it raises;
    a commit that is refused is followed by a rollback, and its exception
    goes on. *)
Definition with_connection {A} (h : handle) (body : M world A) : M world A :=
  conn_enter h ;;;
  λ w, match body w with
       | (Ok a, w') =>
           match conn_commit h w' with
           | (Ok _, w'') => (Ok a, w'')
           | (Raise e, w'') => exit_rollback h e w''
           end
       | (Raise e, w') => exit_rollback h e w'
       end.

(* ===================================================================== *)
(** ** The script                                                         *)
(* ===================================================================== *)

(** Lines 24-26: [with open(file_path, 'r') as file: sql_script = file.read()]. *)
Definition read_sql_script (file_path : path) : M world string :=
  file <~ builtin_open file_path ;;
  file_read file.

(** Lines 24-30, the body of the [try] of [execute_sql_file]. *)
Definition execute_sql_file_body (connection : handle) (file_path : path) : M world unit :=
  sql_script <~ read_sql_script file_path ;;
  with_connection connection
    (conn_executescript connection sql_script ;;;
     logger_info ("Executed: " +:+ path_str file_path)).

(** Lines 13-33. *)
Definition execute_sql_file (connection : handle) (file_path : path) : M world unit :=
  try_except
    (execute_sql_file_body connection file_path)
    (λ e,
       logger_error ("Failed to execute " +:+ path_str file_path +:+ ": " +:+ exn_str e) ;;;
       raise e).

(** The local variables of [main] that outlive the [try] block. *)
Record main_locals := Locals { connection : option handle }.

Definition frame : Type := main_locals * world.

Definition lift {A} (m : M world A) : M frame A :=
  λ s, match m (snd s) with (r, w') => (r, (fst s, w')) end.

Definition store_connection (h : handle) : M frame unit :=
  λ s, (Ok tt, (Locals (Some h), snd s)).

(** What reading the local [connection] raises before line 51 has bound it. *)
Definition unbound_connection : exn :=
  Exn UnboundLocalError
    "cannot access local variable 'connection' where it is not associated with a value".

(** Reading the local [connection]. *)
Definition load_connection : M frame handle :=
  λ s, match connection (fst s) with
       | Some h => (Ok h, s)
       | None => (Raise unbound_connection, s)
       end.

Definition run_frame {A} (m : M frame A) : M world A :=
  λ w, match m (Locals None, w) with (r, s') => (r, snd s') end.

Definition SQL_CREATE_FOLDER (ROOT_DIR : path) : path := joinpath ROOT_DIR "sql_create".
Definition DATA_FOLDER (ROOT_DIR : path) : path := joinpath ROOT_DIR "data".
Definition DB_PATH (ROOT_DIR : path) : path := joinpath (DATA_FOLDER ROOT_DIR) "db.sqlite".

Definition drop_tables_path (ROOT_DIR : path) : path :=
  joinpath (SQL_CREATE_FOLDER ROOT_DIR) "01_drop_tables.sql".
Definition create_tables_path (ROOT_DIR : path) : path :=
  joinpath (SQL_CREATE_FOLDER ROOT_DIR) "02_create_tables.sql".
Definition insert_records_path (ROOT_DIR : path) : path :=
  joinpath (SQL_CREATE_FOLDER ROOT_DIR) "03_insert_records.sql".

(** Lines 50-60, the body of the [try] of [main]. *)
Definition main_try (ROOT_DIR : path) : M frame unit :=
  h <~ lift (sqlite3_connect (DB_PATH ROOT_DIR)) ;;
  store_connection h ;;;
  lift (logger_info ("Connected to database: " +:+ path_str (DB_PATH ROOT_DIR))) ;;;
  c1 <~ load_connection ;;
  lift (execute_sql_file c1 (drop_tables_path ROOT_DIR)) ;;;
  c2 <~ load_connection ;;
  lift (execute_sql_file c2 (create_tables_path ROOT_DIR)) ;;;
  c3 <~ load_connection ;;
  lift (execute_sql_file c3 (insert_records_path ROOT_DIR)) ;;;
  lift (logger_info "Database setup completed successfully.").

(** Lines 61-62. *)
Definition main_except (e : exn) : M frame unit :=
  lift (logger_error ("Error during database setup: " +:+ exn_str e)).

(** Lines 63-65. *)
Definition main_finally : M frame unit :=
  c <~ load_connection ;;
  lift (conn_close c) ;;;
  lift (logger_info "Database connection closed.").

(** Lines 35-65. [ROOT_DIR] is [pathlib.Path(__file__).parent.resolve()],
    the directory that holds the script. *)
Definition main (ROOT_DIR : path) : M world unit :=
  run_frame
    (lift (logger_info "Starting database setup...") ;;;
     lift (Path_mkdir (DATA_FOLDER ROOT_DIR) true) ;;;
     try_except_finally (main_try ROOT_DIR) main_except main_finally).

(** Lines 93-94: the exit status of the process, 0 when [main] returns and
    1 when an exception reaches the top level. *)
Definition run_module (ROOT_DIR : path) (w : world) : Z * world :=
  match main ROOT_DIR w with
  | (Ok _, w') => (0%Z, w')
  | (Raise _, w') => (1%Z, w')
  end.

End Script.

(* ===================================================================== *)
(** ** MiniSQLite: the statements the scripts are written in              *)
(* ===================================================================== *)

(** An executable model of the part of SQLite that the scripts of the
    repository use: the tokenizer (comments, words, literals), statements
    cut at [;] and run one after the other in autocommit mode, DROP TABLE,
    CREATE TABLE, INSERT ... VALUES, BEGIN / COMMIT / ROLLBACK and
    PRAGMA foreign_keys. A statement that opens with a word that starts no
    SQL statement is a syntax error, as in SQLite; a statement that opens
    with an SQL keyword and is outside the fragment is refused with the
    error [unsupported]. *)
Module MiniSQLite.
Local Open Scope nat_scope.

Inductive value :=
  | VNull
  | VInt (n : Z)
  | VText (s : string).

Definition value_eqb (a b : value) : bool :=
  match a, b with
  | VNull, VNull => true
  | VInt x, VInt y => Z.eqb x y
  | VText x, VText y => String.eqb x y
  | _, _ => false
  end.

Record column := Column {
  col_name : string;
  col_type : string;
  col_pk : bool;
  col_unique : bool;
  col_notnull : bool;
}.

Record foreign_key := ForeignKey {
  fk_col : string;
  fk_table : string;
  fk_parent_col : string;
}.

Record table := Table {
  tbl_cols : list column;
  tbl_fks : list foreign_key;
  tbl_rows : list (list value);
}.

(** The tables of a database, by lower-case name. Views, indexes and
    triggers, which share the names of the tables, are outside the
    fragment: a database of the model has none. *)
Abbreviation database := (gmap string table).

(** A session: what is committed, the working copy of an open
    transaction, and the foreign-key enforcement switch, which SQLite
    starts switched off on every new connection. *)
Record sql_session := Session {
  committed : database;
  pending : option database;
  foreign_keys : bool;
}.

Definition current (s : sql_session) : database := default (committed s) (pending s).

Definition set_current (d : database) (s : sql_session) : sql_session :=
  match pending s with
  | Some _ => Session (committed s) (Some d) (foreign_keys s)
  | None => Session d None (foreign_keys s)
  end.

(** *** Characters and words *)

Definition code (c : ascii) : nat := nat_of_ascii c.

Definition is_space (c : ascii) : bool :=
  let n := code c in (n =? 32) || (n =? 9) || (n =? 10) || (n =? 12) || (n =? 13).
Definition is_digit (c : ascii) : bool :=
  let n := code c in (48 <=? n) && (n <=? 57).
Definition is_alpha (c : ascii) : bool :=
  let n := code c in
  ((65 <=? n) && (n <=? 90)) || ((97 <=? n) && (n <=? 122)) || (n =? 95) || (128 <=? n).
Definition is_idchar (c : ascii) : bool := is_alpha c || is_digit c || (code c =? 36).

Definition lower_char (c : ascii) : ascii :=
  let n := code c in
  if (65 <=? n) && (n <=? 90) then ascii_of_nat (n + 32) else c.

Fixpoint lower (s : string) : string :=
  match s with
  | EmptyString => EmptyString
  | String c s' => String (lower_char c) (lower s')
  end.

(** Identifiers and keywords compare without case. *)
Definition same_name (a b : string) : bool := String.eqb (lower a) (lower b).

Fixpoint contains (needle hay : string) : bool :=
  String.prefix needle hay ||
  match hay with
  | EmptyString => false
  | String _ hay' => contains needle hay'
  end.

Definition snoc (s : string) (c : ascii) : string := s +:+ String c EmptyString.

Definition dquote : string := String (ascii_of_nat 34) EmptyString.

(** *** Tokens *)

Inductive token :=
  | TWord (s : string)       (* a bare word: keyword or identifier *)
  | TId (s : string)         (* a quoted identifier *)
  | TInt (n : Z)
  | TReal (s : string)
  | TStr (s : string)
  | TLParen
  | TRParen
  | TComma
  | TSemi
  | TEq
  | TOther (s : string)      (* any other token of SQL *)
  | TIllegal (s : string).   (* text that is no token *)

Inductive lex_state :=
  | LStart
  | LWord (acc : string)
  | LNum (acc : string)
  | LReal (acc : string)
  | LStr (acc : string)
  | LStrQuote (acc : string)
  | LQuoted (close : ascii) (acc : string)
  | LMinus
  | LLineComment
  | LSlash
  | LBlockComment
  | LBlockStar.

Definition digits_value (s : string) : Z :=
  match NilZero.int_of_string s with
  | Some i => Z.of_int i
  | None => 0%Z
  end.

(** The token that starts at character [c], or the state that reads it. *)
Definition start (c : ascii) : list token * lex_state :=
  let n := code c in
  if is_space c then ([], LStart)
  else if is_alpha c then ([], LWord (String c EmptyString))
  else if is_digit c then ([], LNum (String c EmptyString))
  else if n =? 39 then ([], LStr EmptyString)
  else if n =? 34 then ([], LQuoted c EmptyString)
  else if n =? 96 then ([], LQuoted c EmptyString)
  else if n =? 91 then ([], LQuoted (ascii_of_nat 93) EmptyString)
  else if n =? 45 then ([], LMinus)
  else if n =? 47 then ([], LSlash)
  else if n =? 40 then ([TLParen], LStart)
  else if n =? 41 then ([TRParen], LStart)
  else if n =? 44 then ([TComma], LStart)
  else if n =? 59 then ([TSemi], LStart)
  else if n =? 61 then ([TEq], LStart)
  else if (n =? 35) || (n =? 92) || (n =? 94) || (n =? 123) || (n =? 125) || (n <? 32)
       then ([TIllegal (String c EmptyString)], LStart)
  else ([TOther (String c EmptyString)], LStart).

Definition lex_step (st : lex_state) (c : ascii) : list token * lex_state :=
  match st with
  | LStart => start c
  | LWord acc =>
      if is_idchar c then ([], LWord (snoc acc c))
      else let '(out, st') := start c in (TWord acc :: out, st')
  | LNum acc =>
      if is_digit c then ([], LNum (snoc acc c))
      else if code c =? 46 then ([], LReal (snoc acc c))
      else if is_idchar c then ([TIllegal (snoc acc c)], LStart)
      else let '(out, st') := start c in (TInt (digits_value acc) :: out, st')
  | LReal acc =>
      if is_digit c then ([], LReal (snoc acc c))
      else if is_idchar c then ([TIllegal (snoc acc c)], LStart)
      else let '(out, st') := start c in (TReal acc :: out, st')
  | LStr acc =>
      if code c =? 39 then ([], LStrQuote acc) else ([], LStr (snoc acc c))
  | LStrQuote acc =>
      if code c =? 39 then ([], LStr (snoc acc c))
      else let '(out, st') := start c in (TStr acc :: out, st')
  | LQuoted close acc =>
      if Ascii.eqb c close then ([TId acc], LStart) else ([], LQuoted close (snoc acc c))
  | LMinus =>
      if code c =? 45 then ([], LLineComment)
      else let '(out, st') := start c in (TOther "-" :: out, st')
  | LLineComment =>
      if code c =? 10 then ([], LStart) else ([], LLineComment)
  | LSlash =>
      if code c =? 42 then ([], LBlockComment)
      else let '(out, st') := start c in (TOther "/" :: out, st')
  | LBlockComment =>
      if code c =? 42 then ([], LBlockStar) else ([], LBlockComment)
  | LBlockStar =>
      if code c =? 47 then ([], LStart)
      else if code c =? 42 then ([], LBlockStar)
      else ([], LBlockComment)
  end.

(** What the end of the text makes of the state it is reached in. *)
Definition lex_flush (st : lex_state) : list token :=
  match st with
  | LStart | LLineComment | LBlockComment | LBlockStar => []
  | LWord acc => [TWord acc]
  | LNum acc => [TInt (digits_value acc)]
  | LReal acc => [TReal acc]
  | LStr acc => [TIllegal ("'" +:+ acc)]
  | LStrQuote acc => [TStr acc]
  | LQuoted _ acc => [TIllegal acc]
  | LMinus => [TOther "-"]
  | LSlash => [TOther "/"]
  end.

Fixpoint lex_from (st : lex_state) (s : string) : list token :=
  match s with
  | EmptyString => lex_flush st
  | String c s' =>
      let '(out, st') := lex_step st c in
      out ++ lex_from st' s'
  end.

Definition tokenize (s : string) : list token := lex_from LStart s.

(** The statements of a script: the tokens between the semicolons. *)
Fixpoint split_statements (acc : list token) (ts : list token) : list (list token) :=
  match ts with
  | [] => match acc with [] => [] | _ => [acc] end
  | TSemi :: ts' => acc :: split_statements [] ts'
  | t :: ts' => split_statements (acc ++ [t]) ts'
  end.

(** *** Statements *)

Inductive stmt :=
  | SBegin
  | SCommit
  | SRollback
  | SPragmaForeignKeys (on : bool)
  | SDropTable (if_exists : bool) (name : string)
  | SCreateTable (if_not_exists : bool) (name : string)
      (cols : list column) (fks : list foreign_key)
  | SInsert (name : string) (names : option (list string)) (rows : list (list value)).

Inductive parsed :=
  | Parsed (st : stmt)
  | SyntaxError (e : exn)
  | Unsupported.

Definition string_of_Z (n : Z) : string := NilZero.string_of_int (Z.to_int n).

Definition token_text (t : token) : string :=
  match t with
  | TWord s | TId s | TReal s | TOther s | TIllegal s => s
  | TInt n => string_of_Z n
  | TStr s => "'" +:+ s +:+ "'"
  | TLParen => "("
  | TRParen => ")"
  | TComma => ","
  | TSemi => ";"
  | TEq => "="
  end.

Definition syntax_error (t : token) : exn :=
  match t with
  | TIllegal s => Exn OperationalError ("unrecognized token: " +:+ dquote +:+ s +:+ dquote)
  | _ => Exn OperationalError ("near " +:+ dquote +:+ token_text t +:+ dquote +:+ ": syntax error")
  end.

Definition unsupported : exn :=
  Exn OperationalError "statement outside the modelled fragment".

(** The words that open a statement of SQLite. *)
Definition statement_keywords : list string :=
  ["alter"; "analyze"; "attach"; "begin"; "commit"; "create"; "delete"; "detach";
   "drop"; "end"; "explain"; "insert"; "pragma"; "reindex"; "release"; "replace";
   "rollback"; "savepoint"; "select"; "update"; "vacuum"; "values"; "with"].

(** The keywords that SQLite does not take as a name. *)
Definition reserved_words : list string :=
  ["add"; "all"; "alter"; "and"; "as"; "autoincrement"; "between"; "case"; "check";
   "collate"; "commit"; "constraint"; "create"; "default"; "deferrable"; "delete";
   "distinct"; "drop"; "else"; "escape"; "except"; "exists"; "foreign"; "from";
   "group"; "having"; "in"; "index"; "insert"; "intersect"; "into"; "is"; "isnull";
   "join"; "limit"; "not"; "nothing"; "notnull"; "null"; "on"; "or"; "order";
   "primary"; "references"; "returning"; "select"; "set"; "table"; "then"; "to";
   "transaction"; "union"; "unique"; "update"; "using"; "values"; "when"; "where"].

Definition word_in (w : string) (ws : list string) : bool :=
  existsb (String.eqb (lower w)) ws.

Definition kw (w k : string) : bool := String.eqb (lower w) k.

Definition tok_kw (t : token) (k : string) : bool :=
  match t with TWord w => kw w k | _ => false end.

(** A token in the place of a name. *)
Definition tok_name (t : token) : option string :=
  match t with
  | TWord w => if word_in w reserved_words then None else Some w
  | TId s => Some s
  | _ => None
  end.

Definition parse_drop (ts : list token) : parsed :=
  match ts with
  | [t; n] =>
      match tok_name n with
      | Some name => if tok_kw t "table" then Parsed (SDropTable false name) else Unsupported
      | None => Unsupported
      end
  | [t; i; e; n] =>
      match tok_name n with
      | Some name =>
          if tok_kw t "table" && tok_kw i "if" && tok_kw e "exists"
          then Parsed (SDropTable true name) else Unsupported
      | None => Unsupported
      end
  | _ => Unsupported
  end.

(** The items of a parenthesised list, cut at the commas outside any
    inner parentheses. *)
Fixpoint split_items (depth : nat) (acc : list token) (ts : list token) : list (list token) :=
  match ts with
  | [] => [acc]
  | TComma :: ts' =>
      match depth with
      | 0 => acc :: split_items 0 [] ts'
      | _ => split_items depth (acc ++ [TComma]) ts'
      end
  | TLParen :: ts' => split_items (S depth) (acc ++ [TLParen]) ts'
  | TRParen :: ts' => split_items (pred depth) (acc ++ [TRParen]) ts'
  | t :: ts' => split_items depth (acc ++ [t]) ts'
  end.

Definition constraint_words : list string :=
  ["primary"; "not"; "null"; "unique"; "references"; "default"; "check"; "constraint";
   "collate"; "generated"; "as"].

(** The words of a declared type, up to the first constraint. *)
Fixpoint type_words (ts : list token) : list string * list token :=
  match ts with
  | TWord w :: ts' =>
      if word_in w constraint_words then ([], ts)
      else let '(ws, rest) := type_words ts' in (w :: ws, rest)
  | _ => ([], ts)
  end.

Fixpoint join_words (ws : list string) : string :=
  match ws with
  | [] => EmptyString
  | [w] => w
  | w :: ws' => w +:+ " " +:+ join_words ws'
  end.

(** The constraints of a column definition. *)
Fixpoint parse_constraints (c : column) (fks : list foreign_key) (ts : list token)
    : option (column * list foreign_key) :=
  match ts with
  | [] => Some (c, fks)
  | TWord a :: rest =>
      if kw a "unique" then
        parse_constraints (Column (col_name c) (col_type c) (col_pk c) true (col_notnull c))
          fks rest
      else
        match rest with
        | b :: rest' =>
            if kw a "primary" && tok_kw b "key" then
              parse_constraints (Column (col_name c) (col_type c) true true (col_notnull c))
                fks rest'
            else if kw a "not" && tok_kw b "null" then
              parse_constraints (Column (col_name c) (col_type c) (col_pk c) (col_unique c) true)
                fks rest'
            else if kw a "references" then
              match rest' with
              | TLParen :: pc :: TRParen :: rest'' =>
                  match tok_name b, tok_name pc with
                  | Some t, Some p =>
                      parse_constraints c (fks ++ [ForeignKey (col_name c) t p]) rest''
                  | _, _ => None
                  end
              | _ => None
              end
            else None
        | [] => None
        end
  | _ => None
  end.

(** One item of CREATE TABLE: a FOREIGN KEY clause or a column definition. *)
Definition parse_item (item : list token) : option (list column * list foreign_key) :=
  match item with
  | f :: rest =>
      if tok_kw f "foreign" then
        match rest with
        | [k; TLParen; c; TRParen; r; t; TLParen; p; TRParen] =>
            if tok_kw k "key" && tok_kw r "references" then
              match tok_name c, tok_name t, tok_name p with
              | Some c', Some t', Some p' => Some ([], [ForeignKey c' t' p'])
              | _, _, _ => None
              end
            else None
        | _ => None
        end
      else
        match tok_name f with
        | Some name =>
            let '(ws, rest') := type_words rest in
            match parse_constraints (Column name (join_words ws) false false false) [] rest' with
            | Some (col, fks) => Some ([col], fks)
            | None => None
            end
        | None => None
        end
  | [] => None
  end.

Fixpoint parse_items (items : list (list token)) : option (list column * list foreign_key) :=
  match items with
  | [] => Some ([], [])
  | item :: items' =>
      match parse_item item, parse_items items' with
      | Some (cs, fs), Some (cs', fs') => Some (cs ++ cs', fs ++ fs')
      | _, _ => None
      end
  end.

(** A column declared INTEGER PRIMARY KEY names the row id, which the
    model does not have. *)
Definition is_rowid_alias (c : column) : bool :=
  col_pk c && String.eqb (lower (col_type c)) "integer".

Definition parse_create_body (if_not_exists : bool) (n : token) (body : list token) : parsed :=
  match tok_name n, body with
  | Some name, TLParen :: rest =>
      match last rest with
      | Some TRParen =>
          match parse_items (split_items 0 [] (removelast rest)) with
          | Some (cols, fks) =>
              if existsb is_rowid_alias cols then Unsupported
              else Parsed (SCreateTable if_not_exists name cols fks)
          | None => Unsupported
          end
      | _ => Unsupported
      end
  | _, _ => Unsupported
  end.

Definition parse_create (ts : list token) : parsed :=
  match ts with
  | t :: i :: n :: e :: name :: body =>
      if tok_kw t "table" then
        if tok_kw i "if" && tok_kw n "not" && tok_kw e "exists"
        then parse_create_body true name body
        else parse_create_body false i (n :: e :: name :: body)
      else Unsupported
  | t :: name :: body =>
      if tok_kw t "table" then parse_create_body false name body else Unsupported
  | _ => Unsupported
  end.

(** The names of a column list, read up to its closing parenthesis. *)
Fixpoint parse_names (ts : list token) : option (list string * list token) :=
  match ts with
  | n :: TRParen :: rest =>
      match tok_name n with Some name => Some ([name], rest) | None => None end
  | n :: TComma :: rest =>
      match tok_name n, parse_names rest with
      | Some name, Some (names, rest') => Some (name :: names, rest')
      | _, _ => None
      end
  | _ => None
  end.

Inductive rows_state :=
  | RExpectOpen
  | RExpectValue (cur : list value)
  | RExpectNumber (cur : list value)
  | RAfterValue (cur : list value)
  | RAfterTuple.

(** The tuples of literals after VALUES. *)
Fixpoint parse_rows (st : rows_state) (rows : list (list value)) (ts : list token)
    : option (list (list value)) :=
  match ts with
  | [] => match st with RAfterTuple => Some rows | _ => None end
  | t :: ts' =>
      match st, t with
      | RExpectOpen, TLParen => parse_rows (RExpectValue []) rows ts'
      | RExpectValue cur, TInt n => parse_rows (RAfterValue (cur ++ [VInt n])) rows ts'
      | RExpectValue cur, TStr s => parse_rows (RAfterValue (cur ++ [VText s])) rows ts'
      | RExpectValue cur, TWord w =>
          if kw w "null" then parse_rows (RAfterValue (cur ++ [VNull])) rows ts' else None
      | RExpectValue cur, TOther o =>
          if String.eqb o "-" then parse_rows (RExpectNumber cur) rows ts' else None
      | RExpectNumber cur, TInt n => parse_rows (RAfterValue (cur ++ [VInt (- n)])) rows ts'
      | RAfterValue cur, TComma => parse_rows (RExpectValue cur) rows ts'
      | RAfterValue cur, TRParen => parse_rows RAfterTuple (rows ++ [cur]) ts'
      | RAfterTuple, TComma => parse_rows RExpectOpen rows ts'
      | _, _ => None
      end
  end.

Definition parse_insert (ts : list token) : parsed :=
  match ts with
  | i :: n :: rest =>
      match tok_name n with
      | Some name =>
          if tok_kw i "into" then
            match rest with
            | TLParen :: rest' =>
                match parse_names rest' with
                | Some (names, v :: tuples) =>
                    if tok_kw v "values" then
                      match parse_rows RExpectOpen [] tuples with
                      | Some rows => Parsed (SInsert name (Some names) rows)
                      | None => Unsupported
                      end
                    else Unsupported
                | _ => Unsupported
                end
            | v :: tuples =>
                if tok_kw v "values" then
                  match parse_rows RExpectOpen [] tuples with
                  | Some rows => Parsed (SInsert name None rows)
                  | None => Unsupported
                  end
                else Unsupported
            | [] => Unsupported
            end
          else Unsupported
      | None => Unsupported
      end
  | _ => Unsupported
  end.

Definition parse_switch (t : token) : option bool :=
  match t with
  | TWord w =>
      if word_in w ["on"; "true"; "yes"] then Some true
      else if word_in w ["off"; "false"; "no"] then Some false
      else None
  | TInt 1 => Some true
  | TInt 0 => Some false
  | _ => None
  end.

Definition parse_pragma (ts : list token) : parsed :=
  match ts with
  | [n; TEq; v] =>
      if tok_kw n "foreign_keys" then
        match parse_switch v with
        | Some b => Parsed (SPragmaForeignKeys b)
        | None => Unsupported
        end
      else Unsupported
  | _ => Unsupported
  end.

Definition parse_begin (ts : list token) : parsed :=
  match ts with
  | [] => Parsed SBegin
  | [t] => if tok_kw t "transaction" || tok_kw t "deferred" then Parsed SBegin else Unsupported
  | [d; t] =>
      if tok_kw d "deferred" && tok_kw t "transaction" then Parsed SBegin else Unsupported
  | _ => Unsupported
  end.

Definition parse_end (st : stmt) (ts : list token) : parsed :=
  match ts with
  | [] => Parsed st
  | [t] => if tok_kw t "transaction" then Parsed st else Unsupported
  | _ => Unsupported
  end.

(** One statement from its tokens. *)
Definition parse (ts : list token) : parsed :=
  match ts with
  | TWord w :: rest =>
      if kw w "drop" then parse_drop rest
      else if kw w "create" then parse_create rest
      else if kw w "insert" then parse_insert rest
      else if kw w "pragma" then parse_pragma rest
      else if kw w "begin" then parse_begin rest
      else if kw w "commit" || kw w "end" then parse_end SCommit rest
      else if kw w "rollback" then parse_end SRollback rest
      else if word_in w statement_keywords then Unsupported
      else SyntaxError (syntax_error (TWord w))
  | TLParen :: _ => Unsupported
  | t :: _ => SyntaxError (syntax_error t)
  | [] => Unsupported
  end.

(** *** Execution *)

Inductive affinity := AffInteger | AffText | AffBlob | AffReal | AffNumeric.

(** The affinity of a column, from its declared type. *)
Definition affinity_of (ty : string) : affinity :=
  let t := lower ty in
  if contains "int" t then AffInteger
  else if contains "char" t || contains "clob" t || contains "text" t then AffText
  else if contains "blob" t || String.eqb t EmptyString then AffBlob
  else if contains "real" t || contains "floa" t || contains "doub" t then AffReal
  else AffNumeric.

Definition integer_text (s : string) : option Z :=
  match s with
  | EmptyString => None
  | String c s' =>
      if is_digit c || ((code c =? 45) && negb (String.eqb s' EmptyString)) then
        match NilZero.int_of_string s with
        | Some i => Some (Z.of_int i)
        | None => None
        end
      else None
  end.

(** The value a column of affinity [a] stores for [v]: text columns store
    numbers as text, numeric columns store text that spells an integer as
    that integer. The other spellings of a number that SQLite converts
    (a fraction, an exponent, blanks around the digits) are outside the
    fragment, which has no REAL values. *)
Definition coerce (a : affinity) (v : value) : value :=
  match a, v with
  | AffText, VInt n => VText (string_of_Z n)
  | AffBlob, _ | AffText, _ => v
  | _, VText s => match integer_text s with Some n => VInt n | None => v end
  | _, _ => v
  end.

Fixpoint col_index (n : string) (cols : list column) : option nat :=
  match cols with
  | [] => None
  | c :: cols' =>
      if same_name (col_name c) n then Some 0
      else match col_index n cols' with Some i => Some (S i) | None => None end
  end.

(** The value of column [n] in a row of a table with columns [cols]. *)
Definition field (cols : list column) (n : string) (row : list value) : option value :=
  match col_index n cols with
  | Some i => row !! i
  | None => None
  end.

Fixpoint named_value (n : string) (names : list string) (vals : list value) : option value :=
  match names, vals with
  | m :: names', v :: vals' => if same_name m n then Some v else named_value n names' vals'
  | _, _ => None
  end.

Definition count_text (n : nat) : string := string_of_Z (Z.of_nat n).

(** The row that an INSERT with the column list [names] stores: one value
    per column of the table, NULL where the list names none. *)
Definition arrange (tname : string) (cols : list column) (names : option (list string))
    (vals : list value) : result (list value) :=
  match names with
  | None =>
      if length vals =? length cols then Ok vals
      else Raise (Exn OperationalError
             ("table " +:+ tname +:+ " has " +:+ count_text (length cols) +:+
              " columns but " +:+ count_text (length vals) +:+ " values were supplied"))
  | Some ns =>
      if negb (length vals =? length ns) then
        Raise (Exn OperationalError
          (count_text (length vals) +:+ " values for " +:+ count_text (length ns) +:+ " columns"))
      else
        match find (λ n, negb (bool_decide (is_Some (col_index n cols)))) ns with
        | Some n =>
            Raise (Exn OperationalError ("table " +:+ tname +:+ " has no column named " +:+ n))
        | None => Ok (map (λ c, default VNull (named_value (col_name c) ns vals)) cols)
        end
  end.

Fixpoint coerce_row (cols : list column) (row : list value) : list value :=
  match cols, row with
  | c :: cols', v :: row' => coerce (affinity_of (col_type c)) v :: coerce_row cols' row'
  | _, _ => row
  end.

(** NOT NULL and uniqueness (PRIMARY KEY, UNIQUE) of a new row; NULLs
    never collide. *)
Fixpoint check_columns (tname : string) (cs : list column) (i : nat)
    (existing : list (list value)) (row : list value) : option exn :=
  match cs with
  | [] => None
  | c :: cs' =>
      let v := default VNull (row !! i) in
      if col_notnull c && value_eqb v VNull then
        Some (Exn IntegrityError ("NOT NULL constraint failed: " +:+ tname +:+ "." +:+ col_name c))
      else if col_unique c && negb (value_eqb v VNull)
              && existsb (λ r, value_eqb (default VNull (r !! i)) v) existing then
        Some (Exn IntegrityError ("UNIQUE constraint failed: " +:+ tname +:+ "." +:+ col_name c))
      else check_columns tname cs' (S i) existing row
  end.

Fixpoint insert_rows (tname : string) (cols : list column) (names : option (list string))
    (existing : list (list value)) (new : list (list value)) : result (list (list value)) :=
  match new with
  | [] => Ok existing
  | vals :: new' =>
      match arrange tname cols names vals with
      | Raise e => Raise e
      | Ok row =>
          let row' := coerce_row cols row in
          match check_columns tname cols 0 existing row' with
          | Some e => Raise e
          | None => insert_rows tname cols names (existing ++ [row']) new'
          end
      end
  end.

Definition fk_violation : exn := Exn IntegrityError "FOREIGN KEY constraint failed".

(** Does the parent table hold the key that [row] refers to through [fk]?
    A NULL reference refers to nothing. *)
Definition fk_row_ok (d : database) (cols : list column) (fk : foreign_key)
    (row : list value) : bool :=
  match field cols (fk_col fk) row with
  | None | Some VNull => true
  | Some v =>
      match d !! lower (fk_table fk) with
      | Some pt =>
          existsb
            (λ r, match field (tbl_cols pt) (fk_parent_col fk) r with
                  | Some v' => value_eqb v' v
                  | None => false
                  end)
            (tbl_rows pt)
      | None => false
      end
  end.

Definition rows_fk_ok (d : database) (t : table) (rows : list (list value)) : bool :=
  forallb (λ row, forallb (λ fk, fk_row_ok d (tbl_cols t) fk row) (tbl_fks t)) rows.

Definition insert_into (fk_on : bool) (name : string) (names : option (list string))
    (rows : list (list value)) (d : database) : result database :=
  match d !! lower name with
  | None => Raise (Exn OperationalError ("no such table: " +:+ name))
  | Some t =>
      match find (λ fk, fk_on && negb (bool_decide (is_Some (d !! lower (fk_table fk)))))
                 (tbl_fks t) with
      | Some fk => Raise (Exn OperationalError ("no such table: main." +:+ fk_table fk))
      | None =>
          match insert_rows name (tbl_cols t) names (tbl_rows t) rows with
          | Raise e => Raise e
          | Ok rows' =>
              let d' := <[lower name := Table (tbl_cols t) (tbl_fks t) rows']> d in
              if fk_on && negb (rows_fk_ok d' t (drop (length (tbl_rows t)) rows'))
              then Raise fk_violation
              else Ok d'
          end
      end
  end.

(** Does a row of another table refer to table [key]? *)
Definition referenced (key : string) (d : database) : bool :=
  existsb
    (λ kt : string * table,
       negb (String.eqb (fst kt) key) &&
       existsb
         (λ fk, String.eqb (lower (fk_table fk)) key &&
                existsb
                  (λ row, match field (tbl_cols (snd kt)) (fk_col fk) row with
                          | None | Some VNull => false
                          | Some _ => true
                          end)
                  (tbl_rows (snd kt)))
         (tbl_fks (snd kt)))
    (map_to_list d).

Definition drop_table (fk_on : bool) (if_exists : bool) (name : string) (d : database)
    : result database :=
  match d !! lower name with
  | None =>
      if if_exists then Ok d
      else Raise (Exn OperationalError ("no such table: " +:+ name))
  | Some _ =>
      if fk_on && referenced (lower name) d then Raise fk_violation
      else Ok (delete (lower name) d)
  end.

Fixpoint duplicate_column (cols : list column) : option string :=
  match cols with
  | [] => None
  | c :: cols' =>
      if existsb (λ c', same_name (col_name c') (col_name c)) cols' then Some (col_name c)
      else duplicate_column cols'
  end.

Definition create_table (if_not_exists : bool) (name : string) (cols : list column)
    (fks : list foreign_key) (d : database) : result database :=
  match d !! lower name with
  | Some _ =>
      if if_not_exists then Ok d
      else Raise (Exn OperationalError ("table " +:+ name +:+ " already exists"))
  | None =>
      match duplicate_column cols with
      | Some c => Raise (Exn OperationalError ("duplicate column name: " +:+ c))
      | None =>
          if 1 <? length (filter (λ c, col_pk c = true) cols) then
            Raise (Exn OperationalError
              ("table " +:+ dquote +:+ name +:+ dquote +:+ " has more than one primary key"))
          else
            match find (λ fk, negb (bool_decide (is_Some (col_index (fk_col fk) cols)))) fks with
            | Some fk =>
                Raise (Exn OperationalError
                  ("unknown column " +:+ dquote +:+ fk_col fk +:+ dquote +:+
                   " in foreign key definition"))
            | None => Ok (<[lower name := Table cols fks []]> d)
            end
      end
  end.

(** A statement on the working copy, all or nothing. *)
Definition on_current (f : database → result database) (s : sql_session)
    : sql_session * option exn :=
  match f (current s) with
  | Ok d => (set_current d s, None)
  | Raise e => (s, Some e)
  end.

Definition exec (st : stmt) (s : sql_session) : sql_session * option exn :=
  match st with
  | SBegin =>
      match pending s with
      | Some _ =>
          (s, Some (Exn OperationalError "cannot start a transaction within a transaction"))
      | None => (Session (committed s) (Some (committed s)) (foreign_keys s), None)
      end
  | SCommit =>
      match pending s with
      | Some d => (Session d None (foreign_keys s), None)
      | None => (s, Some (Exn OperationalError "cannot commit - no transaction is active"))
      end
  | SRollback =>
      match pending s with
      | Some _ => (Session (committed s) None (foreign_keys s), None)
      | None => (s, Some (Exn OperationalError "cannot rollback - no transaction is active"))
      end
  | SPragmaForeignKeys b =>
      match pending s with
      | Some _ => (s, None)
      | None => (Session (committed s) None b, None)
      end
  | SDropTable if_exists name => on_current (drop_table (foreign_keys s) if_exists name) s
  | SCreateTable if_not_exists name cols fks =>
      on_current (create_table if_not_exists name cols fks) s
  | SInsert name names rows => on_current (insert_into (foreign_keys s) name names rows) s
  end.

(** The statements of a script in turn; the first one that fails ends the
    script, and what the earlier ones did stays done. *)
Fixpoint run_statements (stmts : list (list token)) (s : sql_session)
    : sql_session * option exn :=
  match stmts with
  | [] => (s, None)
  | [] :: stmts' => run_statements stmts' s
  | ts :: stmts' =>
      match parse ts with
      | SyntaxError e => (s, Some e)
      | Unsupported => (s, Some unsupported)
      | Parsed st =>
          match exec st s with
          | (s', None) => run_statements stmts' s'
          | (s', Some e) => (s', Some e)
          end
      end
  end.

(** [Connection.commit()] and [Connection.rollback()]: nothing to do when
    no transaction is open. *)
Definition commit (s : sql_session) : sql_session :=
  match pending s with
  | Some d => Session d None (foreign_keys s)
  | None => s
  end.

Definition rollback (s : sql_session) : sql_session :=
  Session (committed s) None (foreign_keys s).

(** [executescript]: a pending transaction is committed first, then the
    statements run as they are. *)
Definition executescript (sql : string) (s : sql_session) : sql_session * option exn :=
  run_statements (split_statements [] (tokenize sql)) (commit s).

(** A new connection: no transaction, foreign keys not enforced. *)
Definition open_session (d : database) : sql_session := Session d None false.

(** Does the statement need the database file? The transaction statements
    and the pragma do not. *)
Definition needs_file (st : stmt) : bool :=
  match st with
  | SDropTable _ _ | SCreateTable _ _ _ _ | SInsert _ _ _ => true
  | _ => false
  end.

(** The statements of a script on a file that is not a database: the
    first statement that needs the file is refused. *)
Fixpoint run_foreign (stmts : list (list token)) (s : sql_session) : option exn :=
  match stmts with
  | [] => None
  | [] :: stmts' => run_foreign stmts' s
  | ts :: stmts' =>
      match parse ts with
      | SyntaxError e => Some e
      | Unsupported => Some unsupported
      | Parsed st =>
          if needs_file st then Some not_a_database
          else
            match exec st s with
            | (s', None) => run_foreign stmts' s'
            | (_, Some e) => Some e
            end
      end
  end.

Definition executescript_foreign (sql : string) : option exn :=
  run_foreign (split_statements [] (tokenize sql)) (open_session ∅).

(** The fragment has no deferred constraint (a DEFERRABLE clause and the
    pragma [defer_foreign_keys] are outside of it), so its COMMIT is never
    refused; it has no ATTACH DATABASE, so it writes no other file. *)
#[export] Instance engine : Engine := {|
  db := database;
  session := sql_session;
  db_empty := ∅;
  sess_open := open_session;
  sess_committed := committed;
  sess_executescript := executescript;
  sess_foreign := executescript_foreign;
  sess_commit := λ s, (commit s, None);
  sess_rollback := rollback;
  sess_attached := λ _, [];
|}.

End MiniSQLite.

(* ===================================================================== *)
(** ** The SQL text of the repository                                     *)
(* ===================================================================== *)

(** Lines 67-68 of the source file: the text of [01_drop_tables.sql]. *)
Definition drop_tables_sql : string :=
"DROP TABLE IF EXISTS books;
DROP TABLE IF EXISTS authors;
".

(** Lines 70-92 of the source file: the text of [02_create_tables.sql]. *)
Definition create_tables_sql : string :=
"-- Create the authors table 
-- Note that the author table has no foreign keys, so it is a standalone table

    try
    CREATE TABLE authors (
        author_id TEXT PRIMARY KEY,
        first_name TEXT,
        last_name TEXT,
        year_born INTEGER
);

    #Create the books table
    #Note that the books table has a foreign key to the authors table
    #This means that the books table is dependent on the authors table
    #Be sure to create the standalone authors table BEFORE creating the books table.

CREATE TABLE books (
    book_id TEXT PRIMARY KEY,
    title TEXT,
    year_published INTEGER,
    author_id TEXT,
    FOREIGN KEY (author_id) REFERENCES authors(author_id)
);
".

(* ===================================================================== *)
(** ** What a run leaves behind                                           *)
(* ===================================================================== *)

Section Observations.
Context `{E : Engine}.

(** The calls and the log records that a run from [w] to [w'] has added. *)
Definition new_events (w w' : world) : list event := drop (length (trace w)) (trace w').
Definition new_log (w w' : world) : list (level * string) := drop (length (log w)) (log w').

(** The files opened, the scripts submitted, the transaction calls and the
    connections closed, in the order of the trace. *)
Definition opened (tr : list event) : list path :=
  omap (λ ev, match ev with EvOpen p => Some p | _ => None end) tr.
Definition submitted (tr : list event) : list (handle * string) :=
  omap (λ ev, match ev with EvExecutescript h sql => Some (h, sql) | _ => None end) tr.
Definition is_txn_call (ev : event) : bool :=
  match ev with EvCommit _ | EvRollback _ => true | _ => false end.
Definition txn_calls (tr : list event) : list event := List.filter is_txn_call tr.
Definition closes (tr : list event) : list handle :=
  omap (λ ev, match ev with EvClose h => Some h | _ => None end) tr.

(** Has the run reached a commit? *)
Definition commits (tr : list event) : bool :=
  existsb (λ ev, match ev with EvCommit _ => true | _ => false end) tr.

(** The calls of one run of the Script Runner on connection [h]: the file
    is opened; when it could be read and the connection is not closed, its
    text is submitted in one call, which the context manager follows with
    a commit or a rollback, and with both when the commit is refused. *)
Inductive runner_calls (h : handle) (p : path) : bool → list event → Prop :=
  | calls_unread : runner_calls h p false [EvOpen p]
  | calls_rejected sql :
      runner_calls h p false [EvOpen p; EvExecutescript h sql; EvRollback h]
  | calls_uncommitted sql :
      runner_calls h p false [EvOpen p; EvExecutescript h sql; EvCommit h; EvRollback h]
  | calls_executed sql :
      runner_calls h p true [EvOpen p; EvExecutescript h sql; EvCommit h].

(** The calls of the runner over a list of scripts: one script after the
    other, and nothing after the first one that fails. [ok] tells whether
    every script was executed. *)
Inductive scripts_calls (h : handle) : list path → bool → list event → Prop :=
  | scripts_done : scripts_calls h [] true []
  | scripts_next p ps ok tr tr' :
      runner_calls h p true tr →
      scripts_calls h ps ok tr' →
      scripts_calls h (p :: ps) ok (tr ++ tr')
  | scripts_stop p ps tr :
      runner_calls h p false tr →
      scripts_calls h (p :: ps) false tr.

(** The run of [main] on [w] opens a connection: a connection object has
    been added to the heap. *)
Definition opens_connection (ROOT_DIR : path) (w : world) : Prop :=
  length (heap w) < length (heap (main ROOT_DIR w).2).

Definition failed_message (p : path) (e : exn) : string :=
  "Failed to execute " +:+ path_str p +:+ ": " +:+ exn_str e.

(** What [executescript] hands back to Python. *)
Definition engine_result (r : option exn) : result unit :=
  match r with None => Ok tt | Some e => Raise e end.

(** The runner over a list of scripts, one call after the other. *)
Fixpoint run_scripts (h : handle) (ps : list path) : M world unit :=
  match ps with
  | [] => ret tt
  | p :: ps' => execute_sql_file h p ;;; run_scripts h ps'
  end.

(** The answers of the engine to the text [sql] on connection [h]: to the
    batch, and to the commit that follows a batch it has accepted. *)
Definition batch_answer (h : handle) (sql : string) (w : world) : option exn :=
  match conn_lookup h w with
  | Conn _ (Live s) => (sess_executescript sql s).2
  | Conn _ NotADatabase => sess_foreign sql
  | Conn _ Closed => None
  end.

Definition commit_answer (h : handle) (sql : string) (w : world) : option exn :=
  match conn_lookup h w with
  | Conn _ (Live s) => (sess_commit (sess_executescript sql s).1).2
  | _ => None
  end.

(** What decides the outcome of a run of the Script Runner: the reading of
    the file, the state of the connection, and the answers of the engine
    to the text and to the commit. *)
Definition underlying_outcome (h : handle) (p : path) (w : world) : result unit :=
  match (read_sql_script p w).1 with
  | Raise e => Raise e
  | Ok sql =>
      match conn_st (conn_lookup h w) with
      | Closed => Raise closed_database
      | _ =>
          match batch_answer h sql w with
          | Some e => Raise e
          | None => engine_result (commit_answer h sql w)
          end
      end
  end.

(** The world once connection [h] is closed, and the end of a run of
    [main] that had opened [h] and left the scripts with [rw]. *)
Definition close_world (h : handle) (w : world) : world :=
  set_heap (alter (λ c, Conn (conn_path c) Closed) h) (add_event (EvClose h) w).

Definition finish (h : handle) (rw : result unit * world) : result unit * world :=
  (Ok tt,
   add_log INFO "Database connection closed."
     (close_world h
        match rw.1 with
        | Ok _ => add_log INFO "Database setup completed successfully." rw.2
        | Raise e => add_log ERROR ("Error during database setup: " +:+ exn_str e) rw.2
        end)).

(** [f'] has the directories of [f] and no other, and the files of [f]
    with their modes: what a session leaves of a file system, whatever it
    writes. *)
Definition keeps_entries (f f' : gmap path node) : Prop :=
  (∀ p m, f' !! p = Some (Dir m) ↔ f !! p = Some (Dir m)) ∧
  (∀ p m c, f !! p = Some (File m c) → ∃ c', f' !! p = Some (File m c')).


(** The file system after [Path.mkdir(exist_ok=True)] on [p]. *)
Definition mkdir_fs (um : N) (p : path) (f : gmap path node) : gmap path node :=
  match f !! p with
  | None => if creatable f p then <[p := Dir (N.ldiff 511 um)]> f else f
  | Some _ => f
  end.

(** The state of a connection that [sqlite3.connect] has opened on what
    the path held, and the file system after the call. *)
Definition connect_state (o : option node) : conn_state :=
  match o with
  | Some (File _ (Database d)) => Live (sess_open d)
  | Some (File _ (Text s)) =>
      if String.eqb s EmptyString then Live (sess_open db_empty) else NotADatabase
  | _ => Live (sess_open db_empty)
  end.

(** Can [sqlite3.connect] open the path? *)
Definition db_openable (f : gmap path node) (q : path) : bool :=
  match f !! q with
  | Some (Dir _) => false
  | Some (File m _) => reachable f q && readable m
  | None => creatable f q
  end.

Definition connect_fs (um : N) (q : path) (f : gmap path node) : gmap path node :=
  match f !! q with
  | None => <[q := File (N.ldiff 420 um) (Database db_empty)]> f
  | Some _ => f
  end.

(** The three scripts of [main], in the order of lines 56-58. *)
Definition setup_scripts (ROOT_DIR : path) : list path :=
  [drop_tables_path ROOT_DIR; create_tables_path ROOT_DIR; insert_records_path ROOT_DIR].

End Observations.


(* ===================================================================== *)
(** ** The repository on MiniSQLite                                       *)
(* ===================================================================== *)

Section Repository.
Import MiniSQLite.

(** A database without the two tables of the repository. *)
Definition dropped (d : database) : database := delete "authors" (delete "books" d).

(** What SQLite answers to a statement that opens with the word [try]. *)
Definition try_syntax_error : exn := syntax_error (TWord "try").

(** The two scripts of the source file are in place and readable. *)
Definition scripts_installed (ROOT_DIR : path) (w : world) : Prop :=
  (∃ m, fs w !! drop_tables_path ROOT_DIR = Some (File m (Text drop_tables_sql))
        ∧ readable m = true) ∧
  (∃ m, fs w !! create_tables_path ROOT_DIR = Some (File m (Text create_tables_sql))
        ∧ readable m = true).

(** The database that a path holds for a connection: none yet, an empty
    file, or a database file. *)
Definition db_content (f : gmap path node) (q : path) : option database :=
  match f !! q with
  | None => Some ∅
  | Some (File m (Database d)) => if readable m then Some d else None
  | Some (File m (Text s)) => if readable m && String.eqb s EmptyString then Some ∅ else None
  | Some (Dir _) => None
  end.

(** The rows of table [name] in the database file at [q]. *)
Definition table_rows (f : gmap path node) (q : path) (name : string)
    : option (list (list value)) :=
  match f !! q with
  | Some (File _ (Database d)) => tbl_rows <$> d !! name
  | _ => None
  end.

(** *** The declared schema *)

(** Lines 74-79 of the source file: the CREATE TABLE statement of
    [authors], without the stray word of line 73. *)
Definition create_authors_sql : string :=
"    CREATE TABLE authors (
        author_id TEXT PRIMARY KEY,
        first_name TEXT,
        last_name TEXT,
        year_born INTEGER
);
".

(** Lines 86-92 of the source file: the CREATE TABLE statement of [books]. *)
Definition create_books_sql : string :=
"CREATE TABLE books (
    book_id TEXT PRIMARY KEY,
    title TEXT,
    year_published INTEGER,
    author_id TEXT,
    FOREIGN KEY (author_id) REFERENCES authors(author_id)
);
".

Definition authors_columns : list column :=
  [Column "author_id" "TEXT" true true false;
   Column "first_name" "TEXT" false false false;
   Column "last_name" "TEXT" false false false;
   Column "year_born" "INTEGER" false false false].

Definition books_columns : list column :=
  [Column "book_id" "TEXT" true true false;
   Column "title" "TEXT" false false false;
   Column "year_published" "INTEGER" false false false;
   Column "author_id" "TEXT" false false false].

Definition books_foreign_keys : list foreign_key :=
  [ForeignKey "author_id" "authors" "author_id"].

(** The two tables as section 6 of the specification declares them, empty. *)
Definition declared_schema : database :=
  <["books" := Table books_columns books_foreign_keys []]>
    (<["authors" := Table authors_columns [] []]> ∅).


(** *** Worlds to run the script in *)

Definition root0 : path := ["srv"; "datafun-05-sql"].

(** Modelled from the spec: [03_insert_records.sql] is not part of the
    source file; this text inserts the rows of the concrete scenario of
    section 8. *)
Definition seed_sql : string :=
"INSERT INTO authors VALUES ('A1', 'Jane', 'Austen', 1775);
INSERT INTO books VALUES ('B1', 'Emma', 1815, 'A1');
".

(** The checkout: the directory of the script and the three SQL files;
    no data directory yet. *)
Definition checkout_fs : gmap path node :=
  list_to_map
    [(root0, Dir 493);
     (SQL_CREATE_FOLDER root0, Dir 493);
     (drop_tables_path root0, File 420 (Text drop_tables_sql));
     (create_tables_path root0, File 420 (Text create_tables_sql));
     (insert_records_path root0, File 420 (Text seed_sql))].

Definition fresh_world : world := World checkout_fs 18 [] [] [].


(** The checkout without [01_drop_tables.sql]. *)
Definition no_drop_script_world : world :=
  World (delete (drop_tables_path root0) checkout_fs) 18 [] [] [].

(** The checkout with a create script that holds the two CREATE TABLE
    statements of the source file and nothing else. *)
Definition repaired_world : world :=
  World (<[create_tables_path root0 :=
             File 420 (Text (create_authors_sql +:+ create_books_sql))]> checkout_fs)
    18 [] [] [].

(** The checkout where the path of the database file is a directory. *)
Definition blocked_world : world :=
  World (<[DB_PATH root0 := Dir 493]> (<[DATA_FOLDER root0 := Dir 493]> checkout_fs))
    18 [] [] [].

(** The checkout with a database of the declared schema, and an open
    connection on it. *)
Definition schema_world : world :=
  World (<[DB_PATH root0 := File 420 (Database declared_schema)]>
           (<[DATA_FOLDER root0 := Dir 493]> checkout_fs))
    18 [] [] [].

Definition connected_world : world := (sqlite3_connect (DB_PATH root0) schema_world).2.

(** A books row whose author is not in [authors]. *)
Definition dangling_insert_sql : string :=
  "INSERT INTO books VALUES ('B1', 'Emma', 1815, 'A9');".

Definition dangling_insert_path : path := joinpath root0 "dangling.sql".

(** [connected_world] with that statement in a file. *)
Definition dangling_world : world :=
  set_fs (insert dangling_insert_path (File 420 (Text dangling_insert_sql))) connected_world.

(** A script that opens a transaction and leaves it open. *)
Definition pending_create_sql : string := "BEGIN; CREATE TABLE t (x TEXT);".

Definition pending_create_path : path := joinpath root0 "pending.sql".

Definition pending_world : world :=
  set_fs (insert pending_create_path (File 420 (Text pending_create_sql))) connected_world.

(** The checkout where the path of the data directory holds a regular
    file. *)
Definition occupied_world : world :=
  World (<[DATA_FOLDER root0 := File 420 (Text "notes")]> checkout_fs) 18 [] [] [].


(** [connected_world] once its connection has been closed. *)
Definition closed_world : world := (conn_close 0 connected_world).2.

(** The statements of a script once parsed, executed in turn as
    [run_statements] does. *)
Fixpoint run_parsed (ps : list parsed) (s : sql_session) : sql_session * option exn :=
  match ps with
  | [] => (s, None)
  | SyntaxError e :: _ => (s, Some e)
  | Unsupported :: _ => (s, Some unsupported)
  | Parsed st :: ps' =>
      match exec st s with
      | (s', None) => run_parsed ps' s'
      | (s', Some e) => (s', Some e)
      end
  end.

End Repository.
(* ===================================================================== *)
(** ** The runner and the orchestrator, for every engine                  *)
(* ===================================================================== *)

Section ScriptFacts.
Context `{E : Engine}.

Implicit Types (w : world) (h : handle) (p : path) (e : exn).

Lemma new_events_app w w' tr : trace w' = trace w ++ tr → new_events w w' = tr.
Proof. unfold new_events. intros ->. by rewrite drop_app_length. Qed.

Lemma new_log_app w w' l : log w' = log w ++ l → new_log w w' = l.
Proof. unfold new_log. intros ->. by rewrite drop_app_length. Qed.

(** *** The library calls *)

Lemma read_sql_script_world p w :
  (read_sql_script p w).2 = add_event (EvOpen p) w.
Proof.
  unfold read_sql_script, builtin_open, file_read, bind, emit, ret, raise. simpl.
  destruct (fs w !! p) as [[m|m c]|]; simpl; try done.
  destruct (readable m); simpl; try done. by destruct c.
Qed.

Lemma conn_lookup_add_event h ev w : conn_lookup h (add_event ev w) = conn_lookup h w.
Proof. done. Qed.

Lemma conn_lookup_add_log h l msg w : conn_lookup h (add_log l msg w) = conn_lookup h w.
Proof. done. Qed.

Lemma conn_lookup_live_lt h w q s :
  conn_lookup h w = Conn q (Live s) → h < length (heap w).
Proof.
  unfold conn_lookup. intros H.
  destruct (heap w !! h) eqn:Hh; [|discriminate]. by eapply lookup_lt_Some.
Qed.

Lemma conn_lookup_update_session h q s w :
  h < length (heap w) → conn_lookup h (update_session h q s w) = Conn q (Live s).
Proof.
  intros Hlt. unfold conn_lookup, update_session. simpl.
  by rewrite list_lookup_insert_eq.
Qed.

Lemma conn_executescript_eq h sql w :
  conn_executescript h sql w =
  match conn_lookup h w with
  | Conn q (Live s) =>
      (engine_result (sess_executescript sql s).2,
       update_session h q (sess_executescript sql s).1 (add_event (EvExecutescript h sql) w))
  | Conn _ NotADatabase =>
      (engine_result (sess_foreign sql), add_event (EvExecutescript h sql) w)
  | Conn _ Closed => (Raise closed_database, add_event (EvExecutescript h sql) w)
  end.
Proof.
  unfold conn_executescript, bind, emit.
  change (conn_lookup h (add_event (EvExecutescript h sql) w)) with (conn_lookup h w).
  destruct (conn_lookup h w) as [q [s| |]]; try done.
  - by destruct (sess_executescript sql s) as [s' [e|]].
  - by destruct (sess_foreign sql).
Qed.

Lemma conn_commit_eq h w :
  conn_commit h w =
  match conn_lookup h w with
  | Conn q (Live s) =>
      (engine_result (sess_commit s).2,
       update_session h q (sess_commit s).1 (add_event (EvCommit h) w))
  | Conn _ NotADatabase => (Ok tt, add_event (EvCommit h) w)
  | Conn _ Closed => (Raise closed_database, add_event (EvCommit h) w)
  end.
Proof.
  unfold conn_commit, bind, emit.
  change (conn_lookup h (add_event (EvCommit h) w)) with (conn_lookup h w).
  destruct (conn_lookup h w) as [q [s| |]]; try done.
  by destruct (sess_commit s) as [s' [e|]].
Qed.

Lemma conn_rollback_eq h w :
  conn_rollback h w =
  match conn_lookup h w with
  | Conn q (Live s) => (Ok tt, update_session h q (sess_rollback s) (add_event (EvRollback h) w))
  | Conn _ NotADatabase => (Ok tt, add_event (EvRollback h) w)
  | Conn _ Closed => (Raise closed_database, add_event (EvRollback h) w)
  end.
Proof.
  unfold conn_rollback, bind, emit.
  change (conn_lookup h (add_event (EvRollback h) w)) with (conn_lookup h w).
  by destruct (conn_lookup h w) as [q [s| |]].
Qed.

Lemma read_sql_script_result p w :
  (read_sql_script p w).1 =
  match fs w !! p with
  | None => Raise (Exn FileNotFoundError (errno_msg "[Errno 2] No such file or directory" p))
  | Some (Dir _) => Raise (Exn IsADirectoryError (errno_msg "[Errno 21] Is a directory" p))
  | Some (File m c) =>
      if readable m then
        match c with
        | Text sql => Ok sql
        | Database _ => Raise (Exn UnicodeDecodeError "'utf-8' codec can't decode byte")
        end
      else Raise (Exn PermissionError (errno_msg "[Errno 13] Permission denied" p))
  end.
Proof.
  unfold read_sql_script, builtin_open, file_read, bind, emit, ret, raise. simpl.
  destruct (fs w !! p) as [[m|m c]|]; simpl; try done.
  destruct (readable m); simpl; try done. by destruct c.
Qed.

(** *** The Script Runner, case by case *)

Lemma execute_sql_file_read_fails h p w e :
  (read_sql_script p w).1 = Raise e →
  execute_sql_file h p w
  = (Raise e, add_log ERROR (failed_message p e) (add_event (EvOpen p) w)).
Proof.
  intros Hr. pose proof (read_sql_script_world p w) as Hw.
  unfold execute_sql_file, execute_sql_file_body, try_except, bind.
  destruct (read_sql_script p w) as [r w1]. simpl in *. by subst.
Qed.

(** The runner on a closed connection: the context manager is not
    entered. *)
Lemma execute_sql_file_closed h p w sql :
  (read_sql_script p w).1 = Ok sql →
  conn_st (conn_lookup h w) = Closed →
  execute_sql_file h p w
  = (Raise closed_database,
     add_log ERROR (failed_message p closed_database) (add_event (EvOpen p) w)).
Proof.
  intros Hr Hc. pose proof (read_sql_script_world p w) as Hw.
  unfold execute_sql_file, execute_sql_file_body, try_except, bind at 1.
  destruct (read_sql_script p w) as [r w0]. simpl in Hr, Hw. subst r w0.
  unfold with_connection, bind, conn_enter.
  change (conn_lookup h (add_event (EvOpen p) w)) with (conn_lookup h w).
  by destruct (conn_lookup h w) as [q [s| |]].
Qed.

(** The runner on a connection to a file that is not a database. *)
Lemma execute_sql_file_foreign h p w sql q :
  (read_sql_script p w).1 = Ok sql →
  conn_lookup h w = Conn q NotADatabase →
  let w1 := add_event (EvExecutescript h sql) (add_event (EvOpen p) w) in
  execute_sql_file h p w =
  match sess_foreign sql with
  | None =>
      (Ok tt, add_event (EvCommit h) (add_log INFO ("Executed: " +:+ path_str p) w1))
  | Some e =>
      (Raise e, add_log ERROR (failed_message p e) (add_event (EvRollback h) w1))
  end.
Proof.
  intros Hr Hc w1. pose proof (read_sql_script_world p w) as Hw.
  unfold execute_sql_file, execute_sql_file_body, try_except, bind at 1.
  destruct (read_sql_script p w) as [r w0]. simpl in Hr, Hw. subst r w0.
  unfold with_connection, bind at 1, conn_enter.
  change (conn_lookup h (add_event (EvOpen p) w)) with (conn_lookup h w).
  rewrite Hc. unfold bind, logger_info, logger_error, raise, exit_rollback.
  rewrite conn_executescript_eq.
  change (conn_lookup h (add_event (EvOpen p) w)) with (conn_lookup h w).
  rewrite Hc. fold w1.
  destruct (sess_foreign sql) as [e|]; cbn [engine_result fst snd].
  - rewrite conn_rollback_eq.
    change (conn_lookup h w1) with (conn_lookup h w). by rewrite Hc.
  - rewrite conn_commit_eq.
    change (conn_lookup h (add_log INFO ("Executed: " +:+ path_str p) w1))
      with (conn_lookup h w).
    by rewrite Hc.
Qed.

(** The runner on an open connection to a database. *)
Lemma execute_sql_file_live h p w sql q s :
  (read_sql_script p w).1 = Ok sql →
  conn_lookup h w = Conn q (Live s) →
  let w1 := add_event (EvExecutescript h sql) (add_event (EvOpen p) w) in
  execute_sql_file h p w =
  match sess_executescript sql s with
  | (s', None) =>
      let w2 :=
        add_event (EvCommit h)
          (add_log INFO ("Executed: " +:+ path_str p) (update_session h q s' w1)) in
      match sess_commit s' with
      | (s'', None) => (Ok tt, update_session h q s'' w2)
      | (s'', Some e) =>
          (Raise e,
           add_log ERROR (failed_message p e)
             (update_session h q (sess_rollback s'')
                (add_event (EvRollback h) (update_session h q s'' w2))))
      end
  | (s', Some e) =>
      (Raise e,
       add_log ERROR (failed_message p e)
         (update_session h q (sess_rollback s')
            (add_event (EvRollback h) (update_session h q s' w1))))
  end.
Proof.
  intros Hr Hc w1. pose proof (read_sql_script_world p w) as Hw.
  pose proof (conn_lookup_live_lt _ _ _ _ Hc) as Hlt.
  unfold execute_sql_file, execute_sql_file_body, try_except, bind at 1.
  destruct (read_sql_script p w) as [r w0]. simpl in Hr, Hw. subst r w0.
  unfold with_connection, bind at 1, conn_enter.
  change (conn_lookup h (add_event (EvOpen p) w)) with (conn_lookup h w).
  rewrite Hc. unfold bind, logger_info, logger_error, raise, exit_rollback.
  rewrite conn_executescript_eq.
  change (conn_lookup h (add_event (EvOpen p) w)) with (conn_lookup h w).
  rewrite Hc. fold w1.
  destruct (sess_executescript sql s) as [s' [e|]]; cbn [engine_result fst snd].
  - rewrite conn_rollback_eq.
    change (conn_lookup h (update_session h q s' w1))
      with (conn_lookup h (update_session h q s' w)).
    by rewrite conn_lookup_update_session.
  - rewrite conn_commit_eq.
    change (conn_lookup h (add_log INFO ("Executed: " +:+ path_str p)
                             (update_session h q s' w1)))
      with (conn_lookup h (update_session h q s' w)).
    rewrite conn_lookup_update_session by done.
    destruct (sess_commit s') as [s'' [e|]]; cbn [engine_result fst snd]; [|done].
    rewrite conn_rollback_eq.
    set (w2 := add_event (EvCommit h) _).
    assert (Hc2 : conn_lookup h (update_session h q s'' w2) = Conn q (Live s'')).
    { apply conn_lookup_update_session. cbn. by rewrite length_insert. }
    by rewrite Hc2.
Qed.

(** The outcome, the calls and the log records of one run of the runner. *)
Lemma execute_sql_file_summary h p w :
  let r := (execute_sql_file h p w).1 in
  let w' := (execute_sql_file h p w).2 in
  r = underlying_outcome h p w ∧
  trace w' = trace w ++
    match (read_sql_script p w).1 with
    | Raise _ => [EvOpen p]
    | Ok sql =>
        match conn_st (conn_lookup h w) with
        | Closed => [EvOpen p]
        | _ =>
            [EvOpen p; EvExecutescript h sql] ++
            match batch_answer h sql w, commit_answer h sql w with
            | Some _, _ => [EvRollback h]
            | None, None => [EvCommit h]
            | None, Some _ => [EvCommit h; EvRollback h]
            end
        end
    end ∧
  ∃ tr, trace w' = trace w ++ tr ∧
    log w' = log w ++
      (if commits tr && negb (is_ok r) then [(INFO, "Executed: " +:+ path_str p)] else [])
      ++ [match r with
          | Ok _ => (INFO, "Executed: " +:+ path_str p)
          | Raise e => (ERROR, failed_message p e)
          end].
Proof.
  unfold underlying_outcome, batch_answer, commit_answer.
  destruct ((read_sql_script p w).1) as [sql|e] eqn:Hr.
  - destruct (conn_lookup h w) as [q [s| |]] eqn:Hc; cbn [conn_st].
    + rewrite (execute_sql_file_live _ _ _ _ _ _ Hr Hc). cbn zeta.
      destruct (sess_executescript sql s) as [s' [e|]]; cbn [fst snd].
      * repeat split; try done. cbn. by rewrite <- !app_assoc.
        eexists. split; [cbn; by rewrite <- !app_assoc|]. done.
      * destruct (sess_commit s') as [s'' [e|]]; cbn [fst snd engine_result].
        -- repeat split; try done. cbn. by rewrite <- !app_assoc.
           eexists. split; [cbn; by rewrite <- !app_assoc|].
           cbn. by rewrite <- !app_assoc.
        -- repeat split; try done. cbn. by rewrite <- !app_assoc.
           eexists. split; [cbn; by rewrite <- !app_assoc|]. done.
    + rewrite (execute_sql_file_foreign _ _ _ _ _ Hr Hc). cbn zeta.
      destruct (sess_foreign sql) as [e|]; cbn [fst snd engine_result].
      * repeat split; try done. cbn. by rewrite <- !app_assoc.
        eexists. split; [cbn; by rewrite <- !app_assoc|]. done.
      * repeat split; try done. cbn. by rewrite <- !app_assoc.
        eexists. split; [cbn; by rewrite <- !app_assoc|]. done.
    + rewrite (execute_sql_file_closed _ _ _ _ Hr) by by rewrite Hc.
      repeat split; try done. by eexists.
  - rewrite (execute_sql_file_read_fails _ _ _ _ Hr).
    repeat split; try done. by eexists.
Qed.


(** The failures that the specification names, and the success. *)
Lemma runner_file_missing h p w :
  fs w !! p = None →
  (execute_sql_file h p w).1
  = Raise (Exn FileNotFoundError (errno_msg "[Errno 2] No such file or directory" p)).
Proof.
  intros Hp. destruct (execute_sql_file_summary h p w) as (-> & _).
  unfold underlying_outcome. by rewrite read_sql_script_result, Hp.
Qed.

Lemma runner_file_unreadable h p w m c :
  fs w !! p = Some (File m c) → readable m = false →
  (execute_sql_file h p w).1
  = Raise (Exn PermissionError (errno_msg "[Errno 13] Permission denied" p)).
Proof.
  intros Hp Hm. destruct (execute_sql_file_summary h p w) as (-> & _).
  unfold underlying_outcome. by rewrite read_sql_script_result, Hp, Hm.
Qed.

Lemma runner_engine_answer h p w m sql q s e :
  fs w !! p = Some (File m (Text sql)) → readable m = true →
  conn_lookup h w = Conn q (Live s) →
  (sess_executescript sql s).2 = Some e →
  (execute_sql_file h p w).1 = Raise e.
Proof.
  intros Hp Hm Hc He. destruct (execute_sql_file_summary h p w) as (-> & _).
  unfold underlying_outcome, batch_answer.
  by rewrite read_sql_script_result, Hp, Hm, Hc, He.
Qed.

(** C7, as the code has it. For every connection and file path, the
    Script Runner opens the file and, when the file could be read and the
    connection is not closed, submits the whole text in one
    [executescript] call; it issues no BEGIN, but the context manager it
    runs the call in follows a batch that was accepted with one [commit],
    a batch that was refused with one [rollback], and a commit that was
    refused with a rollback. On a closed connection the context manager
    is not entered, and nothing is submitted. *)
Theorem execute_sql_file_single_batch h p w :
  let w' := (execute_sql_file h p w).2 in
  new_events w w' =
    match (read_sql_script p w).1 with
    | Raise _ => [EvOpen p]
    | Ok sql =>
        match conn_st (conn_lookup h w) with
        | Closed => [EvOpen p]
        | _ =>
            [EvOpen p; EvExecutescript h sql] ++
            match batch_answer h sql w, commit_answer h sql w with
            | Some _, _ => [EvRollback h]
            | None, None => [EvCommit h]
            | None, Some _ => [EvCommit h; EvRollback h]
            end
        end
    end.
Proof.
  intros w'. subst w'. apply new_events_app.
  by destruct (execute_sql_file_summary h p w) as (_ & -> & _).
Qed.

(** C9. For every connection and file path, when opening or reading the
    SQL file raises, [execute_sql_file] raises that error and the only call
    it has made is the opening of the file: nothing is submitted to the
    connection, and the file system (the database file with it) and the
    connection objects are as they were. *)
Theorem file_error_submits_nothing h p w e :
  (read_sql_script p w).1 = Raise e →
  let w' := (execute_sql_file h p w).2 in
  (execute_sql_file h p w).1 = Raise e ∧
  new_events w w' = [EvOpen p] ∧
  submitted (new_events w w') = [] ∧
  fs w' = fs w ∧
  heap w' = heap w.
Proof.
  intros Hr. cbn zeta. rewrite (execute_sql_file_read_fails _ _ _ _ Hr). cbn [fst snd].
  assert (Hev : new_events w (add_log ERROR (failed_message p e) (add_event (EvOpen p) w))
                = [EvOpen p]) by by apply new_events_app.
  by rewrite Hev.
Qed.

Lemma persist_lookup_ne (q : path) (d : db) (f : gmap path node) p :
  p ≠ q → persist q d f !! p = f !! p.
Proof.
  intros Hne. unfold persist. destruct (f !! q) as [[m|m c]|]; try done.
  by rewrite lookup_insert_ne.
Qed.

Lemma persist_lookup_eq (q : path) (d : db) (f : gmap path node) :
  persist q d f !! q =
  match f !! q with
  | Some (File m _) => Some (File m (Database d))
  | o => o
  end.
Proof.
  unfold persist. destruct (f !! q) as [[m|m c]|] eqn:Hq; try done.
  by rewrite lookup_insert_eq.
Qed.

Lemma persist_persist (q : path) (d1 d2 : db) (f : gmap path node) :
  persist q d2 (persist q d1 f) = persist q d2 f.
Proof.
  unfold persist at 1. rewrite persist_lookup_eq. unfold persist.
  destruct (f !! q) as [[m|m c]|] eqn:Hq; rewrite ?Hq; try done.
  by rewrite insert_insert_eq.
Qed.

Lemma partial_alter_result (g : option node → option node) (q : path)
    (f : gmap path node) y :
  g (f !! q) = Some y → partial_alter g q f = <[q := y]> f.
Proof.
  intros Hg. apply map_eq. intros k.
  rewrite lookup_partial_alter, lookup_insert. by case_decide.
Qed.

Lemma partial_alter_fix (g : option node → option node) (q : path) (f : gmap path node) :
  g (f !! q) = f !! q → partial_alter g q f = f.
Proof.
  intros Hg. apply map_eq. intros k.
  rewrite lookup_partial_alter. case_decide; by subst.
Qed.

Lemma persist_file (q : path) (d : db) (f : gmap path node) m c :
  f !! q = Some (File m c) → persist q d f = <[q := File m (Database d)]> f.
Proof. intros Hq. unfold persist. by rewrite Hq. Qed.

Lemma mkdir_fs_lookup_ne (um : N) (p p' : path) (f : gmap path node) :
  p' ≠ p → mkdir_fs um p f !! p' = f !! p'.
Proof.
  intros Hne. unfold mkdir_fs.
  destruct (f !! p) as [[m|m c]|]; try done.
  destruct (creatable f p); [|done].
  by rewrite lookup_insert_ne.
Qed.

Lemma mkdir_fs_not_dir (um : N) (p : path) (f : gmap path node) :
  is_dir (mkdir_fs um p f) p = false → mkdir_fs um p f = f.
Proof.
  unfold mkdir_fs, is_dir.
  destruct (f !! p) as [[m|m c]|] eqn:Hp; try done.
  destruct (creatable f p); [|done].
  by rewrite lookup_insert_eq.
Qed.

Lemma mkdir_fs_dir (um : N) (p : path) (f : gmap path node) :
  is_dir f p = true → mkdir_fs um p f = f.
Proof.
  unfold mkdir_fs, is_dir. by destruct (f !! p) as [[m|m c]|].
Qed.

(** *** What a session leaves of the file system *)

Lemma keeps_entries_refl (f : gmap path node) : keeps_entries f f.
Proof. split; [done|]. intros p m c Hp. by exists c. Qed.

Lemma keeps_entries_trans (f1 f2 f3 : gmap path node) :
  keeps_entries f1 f2 → keeps_entries f2 f3 → keeps_entries f1 f3.
Proof.
  intros [Hd1 Hf1] [Hd2 Hf2]. split.
  - intros p m. by rewrite Hd2, Hd1.
  - intros p m c Hp. destruct (Hf1 _ _ _ Hp) as [c' Hp']. by apply Hf2 in Hp'.
Qed.

Lemma keeps_entries_insert (f : gmap path node) (q : path) m c :
  (∀ dm, f !! q ≠ Some (Dir dm)) →
  (∀ m' c', f !! q = Some (File m' c') → m' = m) →
  keeps_entries f (<[q := File m c]> f).
Proof.
  intros Hnd Hm. split.
  - intros p dm. destruct (decide (p = q)) as [->|Hne].
    + rewrite lookup_insert_eq. split; [done|]. intros H. by apply Hnd in H.
    + by rewrite lookup_insert_ne.
  - intros p m' c' Hp. destruct (decide (p = q)) as [->|Hne].
    + rewrite lookup_insert_eq. rewrite (Hm _ _ Hp). by eexists.
    + rewrite lookup_insert_ne by done. by eexists.
Qed.

Lemma keeps_entries_persist (q : path) (d : db) (f : gmap path node) :
  keeps_entries f (persist q d f).
Proof.
  unfold persist. destruct (f !! q) as [[m|m c]|] eqn:Hq; try apply keeps_entries_refl.
  apply keeps_entries_insert; intros; congruence.
Qed.

Lemma keeps_entries_write_attached (um : N) (qd : path * db) (f : gmap path node) :
  keeps_entries f (write_attached um qd f).
Proof.
  unfold write_attached.
  destruct (f !! qd.1) as [[m|m c]|] eqn:Hq; try apply keeps_entries_refl.
  - apply keeps_entries_insert; intros; congruence.
  - destruct (creatable f qd.1); [|apply keeps_entries_refl].
    apply keeps_entries_insert; intros; congruence.
Qed.

Lemma keeps_entries_update_session h q (s : session) w :
  keeps_entries (fs w) (fs (update_session h q s w)).
Proof.
  cbn. induction (sess_attached s) as [|qd l IH]; cbn [foldr].
  - apply keeps_entries_persist.
  - eapply keeps_entries_trans; [exact IH|]. apply keeps_entries_write_attached.
Qed.


Lemma keeps_entries_is_dir (f f' : gmap path node) p :
  keeps_entries f f' → is_dir f' p = is_dir f p.
Proof.
  intros [Hd _]. unfold is_dir.
  destruct (f' !! p) as [[m|m c]|] eqn:H1, (f !! p) as [[m'|m' c']|] eqn:H2; try done.
  - apply Hd in H1. congruence.
  - apply Hd in H1. congruence.
  - apply Hd in H2. congruence.
  - apply Hd in H2. congruence.
Qed.

(** A file that could be opened as a database can still be. *)
Lemma keeps_entries_db_openable (f f' : gmap path node) q m c :
  keeps_entries f f' → f !! q = Some (File m c) →
  db_openable f' q = db_openable f q.
Proof.
  intros [Hd Hf] Hq. destruct (Hf _ _ _ Hq) as [c' Hq'].
  unfold db_openable, reachable. rewrite Hq, Hq'. f_equal.
  destruct (f' !! parent q) as [[pm|pm pc]|] eqn:H1,
           (f !! parent q) as [[pm'|pm' pc']|] eqn:H2; try done.
  - apply Hd in H1. congruence.
  - apply Hd in H1. congruence.
  - apply Hd in H1. congruence.
  - apply Hd in H2. congruence.
  - apply Hd in H2. congruence.
Qed.


(** What a run of the runner leaves alone. *)
Lemma execute_sql_file_frame h p w :
  let w' := (execute_sql_file h p w).2 in
  length (heap w') = length (heap w) ∧
  umask w' = umask w ∧
  conn_path (conn_lookup h w') = conn_path (conn_lookup h w) ∧
  (conn_st (conn_lookup h w) = Closed → conn_st (conn_lookup h w') = Closed) ∧
  keeps_entries (fs w) (fs w').
Proof.
  destruct ((read_sql_script p w).1) as [sql|e] eqn:Hr.
  - destruct (conn_lookup h w) as [q [s| |]] eqn:Hc; cbn zeta.
    + pose proof (conn_lookup_live_lt _ _ _ _ Hc) as Hlt.
      rewrite (execute_sql_file_live _ _ _ _ _ _ Hr Hc). cbn zeta.
      destruct (sess_executescript sql s) as [s' [e|]]; cbn [fst snd];
        [|destruct (sess_commit s') as [s'' [e|]]; cbn [fst snd]].
      all: split; [cbn; by rewrite !length_insert|].
      all: split; [done|].
      all: split; [unfold conn_lookup; cbn; rewrite list_lookup_insert_eq; [done|];
                   by rewrite !length_insert|].
      all: split; [done|].
      * eapply keeps_entries_trans; [|apply (keeps_entries_update_session h q (sess_rollback s'))].
        apply (keeps_entries_update_session h q s').
      * eapply keeps_entries_trans;
          [|apply (keeps_entries_update_session h q (sess_rollback s''))].
        eapply keeps_entries_trans; [|apply (keeps_entries_update_session h q s'')].
        apply (keeps_entries_update_session h q s').
      * eapply keeps_entries_trans; [|apply (keeps_entries_update_session h q s'')].
        apply (keeps_entries_update_session h q s').
    + rewrite (execute_sql_file_foreign _ _ _ _ _ Hr Hc). cbn zeta.
      destruct (sess_foreign sql) as [e|]; cbn [fst snd].
      * rewrite conn_lookup_add_log, !conn_lookup_add_event, Hc.
        repeat split; try done; apply keeps_entries_refl.
      * rewrite !conn_lookup_add_event, conn_lookup_add_log, !conn_lookup_add_event, Hc.
        repeat split; try done; apply keeps_entries_refl.
    + rewrite (execute_sql_file_closed _ _ _ _ Hr) by by rewrite Hc.
      cbn [snd]. rewrite conn_lookup_add_log, !conn_lookup_add_event, Hc.
      repeat split; try done; apply keeps_entries_refl.
  - rewrite (execute_sql_file_read_fails _ _ _ _ Hr).
    repeat split; try done; apply keeps_entries_refl.
Qed.


(** *** The runner over several scripts *)

Lemma runner_calls_of_summary h p w :
  ∃ tr, trace (execute_sql_file h p w).2 = trace w ++ tr ∧
        runner_calls h p (is_ok (execute_sql_file h p w).1) tr.
Proof.
  destruct (execute_sql_file_summary h p w) as (Hr & Ht & _).
  eexists. split; [exact Ht|].
  cbn zeta in Hr. rewrite Hr. unfold underlying_outcome.
  destruct ((read_sql_script p w).1) as [sql|e]; [|constructor].
  destruct (conn_st (conn_lookup h w)); try constructor.
  - destruct (batch_answer h sql w); [constructor|].
    destruct (commit_answer h sql w); constructor.
  - destruct (batch_answer h sql w); [constructor|].
    destruct (commit_answer h sql w); constructor.
Qed.

Lemma run_scripts_cons_ok h p ps w :
  (execute_sql_file h p w).1 = Ok tt →
  run_scripts h (p :: ps) w = run_scripts h ps (execute_sql_file h p w).2.
Proof.
  intros Hr. cbn [run_scripts]. unfold bind.
  destruct (execute_sql_file h p w) as [r w1]. cbn in Hr. by subst r.
Qed.

Lemma run_scripts_cons_raise h p ps w e :
  (execute_sql_file h p w).1 = Raise e →
  run_scripts h (p :: ps) w = (Raise e, (execute_sql_file h p w).2).
Proof.
  intros Hr. cbn [run_scripts]. unfold bind.
  destruct (execute_sql_file h p w) as [r w1]. cbn in Hr. by subst r.
Qed.

Lemma run_scripts_calls h ps w :
  ∃ tr, trace (run_scripts h ps w).2 = trace w ++ tr ∧
        scripts_calls h ps (is_ok (run_scripts h ps w).1) tr.
Proof.
  revert w. induction ps as [|p ps IH]; intros w.
  - exists []. cbn. rewrite app_nil_r. split; [done | constructor].
  - cbn [run_scripts]. unfold bind.
    destruct (runner_calls_of_summary h p w) as (tr & Ht & Hc).
    destruct (execute_sql_file h p w) as [[[]|e] w1]; cbn [fst snd is_ok] in *.
    + destruct (IH w1) as (tr' & Ht' & Hc').
      exists (tr ++ tr'). split.
      * by rewrite Ht', Ht, app_assoc.
      * by econstructor.
    + exists tr. split; [done|]. by constructor.
Qed.

Lemma run_scripts_frame h ps w :
  let w' := (run_scripts h ps w).2 in
  length (heap w') = length (heap w) ∧
  umask w' = umask w ∧
  conn_path (conn_lookup h w') = conn_path (conn_lookup h w) ∧
  keeps_entries (fs w) (fs w').
Proof.
  revert w. induction ps as [|p ps IH]; intros w.
  { split; [done|]. split; [done|]. split; [done|]. apply keeps_entries_refl. }
  cbn [run_scripts]. unfold bind.
  destruct (execute_sql_file_frame h p w) as (Hl & Hu & Hp & _ & Hf).
  destruct (execute_sql_file h p w) as [[[]|e] w1]; cbn [fst snd] in *; [|done].
  destruct (IH w1) as (Hl' & Hu' & Hp' & Hf'). cbn zeta in *.
  split; [congruence|]. split; [congruence|]. split; [congruence|].
  by eapply keeps_entries_trans.
Qed.


(** The records of one run of the runner: the record of its outcome,
    after the informational record when the failure is that of the commit. *)
Lemma execute_sql_file_log h p w :
  ∃ l0, log (execute_sql_file h p w).2
        = log w ++ l0 ++
          [match (execute_sql_file h p w).1 with
           | Ok _ => (INFO, "Executed: " +:+ path_str p)
           | Raise e => (ERROR, failed_message p e)
           end] ∧
        (l0 = [] ∨ l0 = [(INFO, "Executed: " +:+ path_str p)]).
Proof.
  destruct (execute_sql_file_summary h p w) as (_ & _ & tr & _ & Hl).
  eexists. split; [exact Hl|]. destruct (_ && _); eauto.
Qed.

(** The log of the runner over several scripts ends with the record of the
    script that failed, when one did. *)
Lemma run_scripts_log h ps w :
  ∃ l, log (run_scripts h ps w).2 = log w ++ l ∧
       match (run_scripts h ps w).1 with
       | Ok _ => True
       | Raise e => ∃ p l0, p ∈ ps ∧ l = l0 ++ [(ERROR, failed_message p e)]
       end.
Proof.
  revert w. induction ps as [|p ps IH]; intros w.
  - exists []. cbn. by rewrite app_nil_r.
  - cbn [run_scripts]. unfold bind.
    destruct (execute_sql_file_log h p w) as (l0 & Hl & _).
    destruct (execute_sql_file h p w) as [[[]|e] w1]; cbn [fst snd] in *.
    + destruct (IH w1) as (l & Hl' & Hr).
      eexists. split; [by rewrite Hl', Hl, <- !app_assoc|].
      destruct ((run_scripts h ps w1).1) as [|e]; [done|].
      destruct Hr as (p' & l1 & Hin & ->).
      exists p', (l0 ++ [(INFO, "Executed: " +:+ path_str p)] ++ l1).
      split; [by right | by rewrite <- !app_assoc].
    + eexists. split; [exact Hl|]. exists p, l0. split; [by left | done].
Qed.

(** *** The directory and the connection *)

Lemma Path_mkdir_eq p w :
  Path_mkdir p true w =
  let w1 := add_event (EvMkdir p) w in
  match fs w !! p with
  | Some (Dir _) => (Ok tt, w1)
  | Some (File _ _) =>
      (Raise (Exn FileExistsError (errno_msg "[Errno 17] File exists" p)), w1)
  | None =>
      match fs w !! parent p with
      | Some (Dir pm) =>
          if writable pm && searchable pm
          then (Ok tt, set_fs (insert p (Dir (N.ldiff 511 (umask w)))) w1)
          else (Raise (Exn PermissionError (errno_msg "[Errno 13] Permission denied" p)), w1)
      | Some (File _ _) =>
          (Raise (Exn NotADirectoryError (errno_msg "[Errno 20] Not a directory" p)), w1)
      | None =>
          (Raise (Exn FileNotFoundError (errno_msg "[Errno 2] No such file or directory" p)), w1)
      end
  end.
Proof.
  unfold Path_mkdir, try_except, os_mkdir, bind, emit, is_dir. cbn.
  destruct (fs w !! p) as [[m|m c]|] eqn:Hp; cbn; rewrite ?Hp; try done.
  destruct (fs w !! parent p) as [[m|m c]|] eqn:Hq; cbn; rewrite ?Hp; try done.
  destruct (writable m && searchable m); cbn; rewrite ?Hp; done.
Qed.

Lemma Path_mkdir_frame p w :
  let w' := (Path_mkdir p true w).2 in
  heap w' = heap w ∧ log w' = log w ∧ umask w' = umask w ∧
  trace w' = trace w ++ [EvMkdir p] ∧
  (∀ p', p' ≠ p → fs w' !! p' = fs w !! p') ∧
  ((Path_mkdir p true w).1 = Ok tt → is_dir (fs w') p = true).
Proof.
  rewrite Path_mkdir_eq. cbn zeta. unfold is_dir.
  destruct (fs w !! p) as [[m|m c]|] eqn:Hp; cbn; rewrite ?Hp; try done.
  destruct (fs w !! parent p) as [[m|m c]|] eqn:Hq; cbn; try done.
  destruct (writable m && searchable m); cbn; rewrite ?Hp; try done.
  repeat split; try done.
  - intros p' Hne. by rewrite lookup_insert_ne.
  - by rewrite lookup_insert_eq.
Qed.

Lemma sqlite3_connect_raise q w e w' :
  sqlite3_connect q w = (Raise e, w') →
  e = unable_to_open ∧ w' = add_event (EvConnect q) w.
Proof.
  unfold sqlite3_connect, bind, emit, new_connection. cbn.
  destruct (fs w !! parent q) as [[pm|pm pc]|]; cbn; try by intros [= <- <-].
  destruct (searchable pm); try by intros [= <- <-].
  destruct (fs w !! q) as [[m|m c]|]; cbn.
  - by intros [= <- <-].
  - destruct (readable m); [done | by intros [= <- <-]].
  - destruct (writable pm); [done | by intros [= <- <-]].
Qed.

Lemma connect_fs_lookup_ne (um : N) (q : path) (f : gmap path node) p :
  p ≠ q → connect_fs um q f !! p = f !! p.
Proof.
  intros Hne. unfold connect_fs. destruct (f !! q); [done|].
  by rewrite lookup_insert_ne.
Qed.

Lemma sqlite3_connect_ok q w h w' :
  sqlite3_connect q w = (Ok h, w') →
  h = length (heap w) ∧
  heap w' = heap w ++ [Conn q (connect_state (fs w !! q))] ∧
  log w' = log w ∧ umask w' = umask w ∧
  trace w' = trace w ++ [EvConnect q] ∧
  fs w' = connect_fs (umask w) q (fs w).
Proof.
  unfold sqlite3_connect, bind, emit, new_connection, connect_fs, connect_state. cbn.
  destruct (fs w !! parent q) as [[pm|pm pc]|]; cbn; try done.
  destruct (searchable pm); try done.
  destruct (fs w !! q) as [[m|m c]|]; cbn.
  - done.
  - destruct (readable m); [|done]. by intros [= <- <-].
  - destruct (writable pm); [|done]. by intros [= <- <-].
Qed.

Lemma sqlite3_connect_is_ok q w :
  is_ok (sqlite3_connect q w).1 = db_openable (fs w) q.
Proof.
  unfold sqlite3_connect, bind, emit, new_connection, db_openable, reachable, creatable.
  change (fs (add_event (EvConnect q) w)) with (fs w).
  destruct (fs w !! parent q) as [[pm|pm pc]|]; cbn [fst snd is_ok].
  - destruct (searchable pm); cbn [fst snd is_ok].
    + destruct (fs w !! q) as [[m|m c]|]; cbn [fst snd is_ok]; try done.
      * by destruct (readable m).
      * rewrite andb_true_r. by destruct (writable pm).
    + destruct (fs w !! q) as [[m|m c]|]; try done. by rewrite andb_false_r.
  - by destruct (fs w !! q) as [[m|m c]|].
  - by destruct (fs w !! q) as [[m|m c]|].
Qed.

Lemma Path_mkdir_fs p w :
  fs (Path_mkdir p true w).2 = mkdir_fs (umask w) p (fs w).
Proof.
  rewrite Path_mkdir_eq. cbn zeta. unfold mkdir_fs, creatable.
  destruct (fs w !! p) as [[m|m c]|]; try done.
  destruct (fs w !! parent p) as [[m|m c]|]; try done.
  by destruct (writable m && searchable m).
Qed.

Lemma Path_mkdir_ok_iff p w :
  (Path_mkdir p true w).1 = Ok tt ↔ is_dir (mkdir_fs (umask w) p (fs w)) p = true.
Proof.
  rewrite Path_mkdir_eq. cbn zeta. unfold mkdir_fs, creatable, is_dir.
  destruct (fs w !! p) as [[m|m c]|] eqn:Hp; rewrite ?Hp; try done.
  destruct (fs w !! parent p) as [[m|m c]|]; rewrite ?Hp, ?lookup_insert_eq; try done.
  destruct (writable m && searchable m); rewrite ?Hp, ?lookup_insert_eq; done.
Qed.

Lemma main_eq root w :
  main root w =
  match Path_mkdir (DATA_FOLDER root) true (add_log INFO "Starting database setup..." w) with
  | (Raise e, w1) => (Raise e, w1)
  | (Ok _, w1) =>
      match sqlite3_connect (DB_PATH root) w1 with
      | (Raise e, w2) =>
          (Raise unbound_connection,
           add_log ERROR ("Error during database setup: " +:+ exn_str e) w2)
      | (Ok h, w2) =>
          finish h
            (run_scripts h (setup_scripts root)
               (add_log INFO ("Connected to database: " +:+ path_str (DB_PATH root)) w2))
      end
  end.
Proof.
  unfold main, run_frame, bind, lift, logger_info. cbn [fst snd].
  destruct (Path_mkdir _ _ _) as [[[]|e] w1]; [|done].
  unfold try_except_finally, try_finally, try_except, main_try, bind, lift. cbn [fst snd].
  destruct (sqlite3_connect _ _) as [[h|e] w2]; [|done].
  unfold store_connection, load_connection, logger_info, main_except, lift, logger_error.
  cbn [fst snd connection]. unfold bind.
  unfold finish, run_scripts, setup_scripts, bind, close_world, main_finally,
    load_connection, lift, conn_close, bind, emit, logger_info, ret.
  destruct (execute_sql_file h (drop_tables_path root) _) as [[[]|e1] w3]; [|done].
  cbn [fst snd connection].
  destruct (execute_sql_file h (create_tables_path root) _) as [[[]|e2] w4]; [|done].
  cbn [fst snd connection].
  by destruct (execute_sql_file h (insert_records_path root) _) as [[[]|e3] w5].
Qed.

(** A run that opens a connection has passed the directory step and the
    connect call, and ends through [finish]. *)
Lemma opens_connection_inv root w :
  opens_connection root w →
  ∃ w1 w2,
    Path_mkdir (DATA_FOLDER root) true (add_log INFO "Starting database setup..." w)
      = (Ok tt, w1) ∧
    sqlite3_connect (DB_PATH root) w1 = (Ok (length (heap w)), w2) ∧
    main root w =
      finish (length (heap w))
        (run_scripts (length (heap w)) (setup_scripts root)
           (add_log INFO ("Connected to database: " +:+ path_str (DB_PATH root)) w2)).
Proof.
  unfold opens_connection. rewrite main_eq.
  pose proof (Path_mkdir_frame (DATA_FOLDER root)
                (add_log INFO "Starting database setup..." w)) as (Hh & _).
  change (heap (add_log INFO "Starting database setup..." w)) with (heap w) in Hh.
  destruct (Path_mkdir _ _ _) as [[[]|e] w1]; cbn [fst snd] in *.
  - destruct (sqlite3_connect _ _) as [[h|e] w2] eqn:Hc.
    + intros _. apply sqlite3_connect_ok in Hc as Hc'. destruct Hc' as (-> & _).
      rewrite Hh in *. eauto.
    + apply sqlite3_connect_raise in Hc as (_ & ->). cbn [fst snd].
      change (heap (add_log _ _ (add_event _ w1))) with (heap w1). rewrite Hh. lia.
  - rewrite Hh. lia.
Qed.
(** *** Paths *)

Lemma parent_joinpath p n : parent (joinpath p n) = p.
Proof. apply removelast_last. Qed.

Lemma joinpath_ne_self p n : joinpath p n ≠ p.
Proof.
  unfold joinpath. intros H. apply (f_equal length) in H.
  rewrite length_app in H. cbn in H. lia.
Qed.

Lemma DB_PATH_ne_DATA root : DB_PATH root ≠ DATA_FOLDER root.
Proof. apply joinpath_ne_self. Qed.

Lemma script_ne_DATA root n : joinpath (SQL_CREATE_FOLDER root) n ≠ DATA_FOLDER root.
Proof.
  unfold SQL_CREATE_FOLDER, DATA_FOLDER, joinpath. rewrite <- app_assoc.
  intros H%app_inv_head. discriminate.
Qed.

Lemma script_ne_DB root n : joinpath (SQL_CREATE_FOLDER root) n ≠ DB_PATH root.
Proof.
  unfold SQL_CREATE_FOLDER, DB_PATH, DATA_FOLDER, joinpath. rewrite <- !app_assoc.
  intros H%app_inv_head. discriminate.
Qed.

(** *** The run of [main] once the connection is open *)

(** The state in which the three scripts start, and what the run leaves. *)
Lemma main_connected root w :
  opens_connection root w →
  let h := length (heap w) in
  ∃ w2 st,
    let w3 := add_log INFO ("Connected to database: " +:+ path_str (DB_PATH root)) w2 in
    main root w = finish h (run_scripts h (setup_scripts root) w3) ∧
    heap w2 = heap w ++ [Conn (DB_PATH root) st] ∧
    conn_lookup h w3 = Conn (DB_PATH root) st ∧
    log w3 = log w ++ [(INFO, "Starting database setup...");
                       (INFO, "Connected to database: " +:+ path_str (DB_PATH root))] ∧
    trace w3 = trace w ++ [EvMkdir (DATA_FOLDER root); EvConnect (DB_PATH root)] ∧
    umask w3 = umask w ∧
    (∀ p, p ≠ DB_PATH root → p ≠ DATA_FOLDER root → fs w3 !! p = fs w !! p) ∧
    (∀ p, p ≠ DB_PATH root →
       fs w3 !! p
       = fs (Path_mkdir (DATA_FOLDER root) true
               (add_log INFO "Starting database setup..." w)).2 !! p) ∧
    st = connect_state (fs w !! DB_PATH root) ∧
    is_dir (mkdir_fs (umask w) (DATA_FOLDER root) (fs w)) (DATA_FOLDER root) = true ∧
    fs w3 = connect_fs (umask w) (DB_PATH root)
              (mkdir_fs (umask w) (DATA_FOLDER root) (fs w)).
Proof.
  intros Ho h. destruct (opens_connection_inv _ _ Ho) as (w1 & w2 & Hm & Hc & Hmain).
  pose proof (Path_mkdir_frame (DATA_FOLDER root)
                (add_log INFO "Starting database setup..." w)) as (Hh & Hl & Hu & Ht & Hf & _).
  pose proof (Path_mkdir_fs (DATA_FOLDER root)
                (add_log INFO "Starting database setup..." w)) as Hfs.
  pose proof (Path_mkdir_ok_iff (DATA_FOLDER root)
                (add_log INFO "Starting database setup..." w)) as Hiff.
  rewrite Hm in Hh, Hl, Hu, Ht, Hf, Hfs, Hiff. cbn [fst snd] in *.
  apply sqlite3_connect_ok in Hc as (_ & Hh2 & Hl2 & Hu2 & Ht2 & Hf2).
  exists w2, (connect_state (fs w1 !! DB_PATH root)). cbn zeta. repeat split.
  - exact Hmain.
  - by rewrite Hh2, Hh.
  - unfold conn_lookup. cbn. rewrite Hh2, Hh. cbn.
    rewrite lookup_app_r by done. by rewrite Nat.sub_diag.
  - cbn. rewrite Hl2, Hl. cbn. by rewrite <- app_assoc.
  - cbn. rewrite Ht2, Ht. cbn. by rewrite <- app_assoc.
  - cbn. by rewrite Hu2, Hu.
  - intros p Hp1 Hp2. cbn. rewrite Hf2, connect_fs_lookup_ne, Hf; done.
  - intros p Hp. cbn. rewrite Hm. cbn. by rewrite Hf2, connect_fs_lookup_ne.
  - by rewrite Hf by apply DB_PATH_ne_DATA.
  - by apply Hiff.
  - cbn. by rewrite Hf2, Hu, Hfs.
Qed.

Lemma finish_result h rw : (finish h rw).1 = Ok tt.
Proof. done. Qed.

Lemma finish_trace h rw : trace (finish h rw).2 = trace rw.2 ++ [EvClose h].
Proof. by destruct rw as [[[]|e] w]. Qed.

Lemma finish_heap h rw :
  heap (finish h rw).2 = alter (λ c, Conn (conn_path c) Closed) h (heap rw.2).
Proof. by destruct rw as [[[]|e] w]. Qed.

Lemma finish_fs h rw : fs (finish h rw).2 = fs rw.2.
Proof. by destruct rw as [[[]|e] w]. Qed.

Lemma finish_log h rw :
  log (finish h rw).2 =
  log rw.2 ++
    [match rw.1 with
     | Ok _ => (INFO, "Database setup completed successfully.")
     | Raise e => (ERROR, "Error during database setup: " +:+ exn_str e)
     end;
     (INFO, "Database connection closed.")].
Proof. destruct rw as [[[]|e] w]; cbn; by rewrite <- app_assoc. Qed.

Lemma closes_runner_calls h p ok tr : runner_calls h p ok tr → closes tr = [].
Proof. by destruct 1. Qed.

Lemma closes_scripts_calls h ps ok tr : scripts_calls h ps ok tr → closes tr = [].
Proof.
  induction 1 as [|p ps ok tr tr' Hr _ IH|p ps tr Hr]; [done|..].
  - pose proof (closes_runner_calls _ _ _ _ Hr) as H1.
    unfold closes in *. by rewrite omap_app, IH, H1.
  - by apply closes_runner_calls in Hr.
Qed.

(** C3. When the run has its connection, the scripts are run in the
    order drop-tables, create-tables, insert-records; the calls of a run
    end with the first script that fails (the later scripts are not even
    opened), and the close of the connection follows in every case. In
    particular, with [01_drop_tables.sql] missing, the only call between
    the connect and the close is the failed opening of that file. *)
Theorem main_runs_scripts_in_order root w :
  opens_connection root w →
  let w' := (main root w).2 in
  let h := length (heap w) in
  ∃ ok tr,
    new_events w w'
    = [EvMkdir (DATA_FOLDER root); EvConnect (DB_PATH root)] ++ tr ++ [EvClose h] ∧
    scripts_calls h
      [drop_tables_path root; create_tables_path root; insert_records_path root] ok tr ∧
    heap w' !! h = Some (Conn (DB_PATH root) Closed) ∧
    (fs w !! drop_tables_path root = None → tr = [EvOpen (drop_tables_path root)]).
Proof.
  intros Ho w' h. subst w'.
  destruct (main_connected _ _ Ho) as (w2 & st & Hmain & Hh & Hc & _ & Ht & _ & Hf & _).
  fold h in Hmain, Hc. cbn zeta in *.
  set (w3 := add_log INFO _ w2) in *.
  destruct (run_scripts_calls h (setup_scripts root) w3) as (tr & Htr & Hcalls).
  destruct (run_scripts_frame h (setup_scripts root) w3) as (Hlen & _ & Hpath & _).
  rewrite Hmain. exists (is_ok (run_scripts h (setup_scripts root) w3).1), tr.
  repeat split.
  - apply new_events_app. rewrite finish_trace, Htr, Ht. by rewrite <- !app_assoc.
  - exact Hcalls.
  - rewrite finish_heap.
    assert (Hlt : h < length (heap (run_scripts h (setup_scripts root) w3).2)).
    { rewrite Hlen. cbn. rewrite Hh, length_app. cbn. lia. }
    rewrite list_lookup_alter_eq.
    rewrite Hc in Hpath. unfold conn_lookup in Hpath.
    destruct (heap (run_scripts h (setup_scripts root) w3).2 !! _) as [c|] eqn:Hc'.
    + cbn in *. by rewrite Hpath.
    + apply lookup_ge_None in Hc'. lia.
  - intros Hmiss.
    assert (Hmiss' : fs w3 !! drop_tables_path root = None).
    { rewrite <- Hmiss. apply Hf; [apply script_ne_DB | apply script_ne_DATA]. }
    assert (Hr : (read_sql_script (drop_tables_path root) w3).1
                 = Raise (Exn FileNotFoundError
                            (errno_msg "[Errno 2] No such file or directory"
                               (drop_tables_path root))))
      by by rewrite read_sql_script_result, Hmiss'.
    revert Htr. unfold setup_scripts. cbn [run_scripts]. unfold bind.
    rewrite (execute_sql_file_read_fails _ _ _ _ Hr). cbn.
    by intros ?%app_inv_head.
Qed.
(** When a run opens its connection: the data directory is there after
    the directory step, and the path of the database can be opened. *)
Lemma opens_connection_iff root w :
  opens_connection root w ↔
  is_dir (mkdir_fs (umask w) (DATA_FOLDER root) (fs w)) (DATA_FOLDER root) = true ∧
  db_openable (mkdir_fs (umask w) (DATA_FOLDER root) (fs w)) (DB_PATH root) = true.
Proof.
  split.
  - intros Ho. destruct (opens_connection_inv _ _ Ho) as (w1 & w2 & Hm & Hc & _).
    pose proof (Path_mkdir_ok_iff (DATA_FOLDER root)
                  (add_log INFO "Starting database setup..." w)) as Hiff.
    pose proof (Path_mkdir_fs (DATA_FOLDER root)
                  (add_log INFO "Starting database setup..." w)) as Hfs.
    pose proof (sqlite3_connect_is_ok (DB_PATH root) w1) as Hok.
    rewrite Hm in Hiff, Hfs. rewrite Hc in Hok. cbn in Hiff, Hfs, Hok.
    split; [by apply Hiff | by rewrite <- Hfs].
  - intros [Hd Ho]. unfold opens_connection. rewrite main_eq.
    pose proof (Path_mkdir_ok_iff (DATA_FOLDER root)
                  (add_log INFO "Starting database setup..." w)) as Hiff.
    pose proof (Path_mkdir_fs (DATA_FOLDER root)
                  (add_log INFO "Starting database setup..." w)) as Hfs.
    pose proof (Path_mkdir_frame (DATA_FOLDER root)
                  (add_log INFO "Starting database setup..." w)) as (Hh & _).
    change (heap (add_log INFO "Starting database setup..." w)) with (heap w) in Hh.
    change (fs (add_log INFO "Starting database setup..." w)) with (fs w) in Hfs, Hiff.
    change (umask (add_log INFO "Starting database setup..." w)) with (umask w) in Hfs, Hiff.
    apply Hiff in Hd.
    destruct (Path_mkdir _ _ _) as [[[]|e] w1]; cbn [fst snd] in *; [|done].
    pose proof (sqlite3_connect_is_ok (DB_PATH root) w1) as Hok.
    rewrite Hfs, Ho in Hok.
    destruct (sqlite3_connect _ _) as [[h|e] w2] eqn:Hc; cbn in Hok; [|done].
    apply sqlite3_connect_ok in Hc as (-> & Hh2 & _).
    rewrite finish_heap, length_alter.
    destruct (run_scripts_frame (length (heap w1)) (setup_scripts root)
                (add_log INFO ("Connected to database: " +:+ path_str (DB_PATH root)) w2))
      as (Hl & _).
    cbn zeta in Hl. rewrite Hl. cbn. rewrite Hh2, length_app, Hh. cbn. lia.
Qed.

(** A failure of the directory step is outside the [try]: it leaves
    [main] as it is, and nothing else is attempted. *)
Lemma main_mkdir_failure_propagates root w :
  is_dir (mkdir_fs (umask w) (DATA_FOLDER root) (fs w)) (DATA_FOLDER root) = false →
  ∃ e, (main root w).1 = Raise e ∧
       new_events w (main root w).2 = [EvMkdir (DATA_FOLDER root)] ∧
       fs (main root w).2 = fs w.
Proof.
  intros Hd. rewrite main_eq.
  pose proof (Path_mkdir_ok_iff (DATA_FOLDER root)
                (add_log INFO "Starting database setup..." w)) as Hiff.
  pose proof (Path_mkdir_fs (DATA_FOLDER root)
                (add_log INFO "Starting database setup..." w)) as Hfs.
  pose proof (Path_mkdir_frame (DATA_FOLDER root)
                (add_log INFO "Starting database setup..." w)) as (_ & _ & _ & Ht & _).
  change (fs (add_log INFO "Starting database setup..." w)) with (fs w) in Hfs, Hiff.
  change (umask (add_log INFO "Starting database setup..." w)) with (umask w) in Hfs, Hiff.
  change (trace (add_log INFO "Starting database setup..." w)) with (trace w) in Ht.
  destruct (Path_mkdir _ _ _) as [[[]|e] w1]; cbn [fst snd] in *.
  - destruct Hiff as [Hiff _]. specialize (Hiff eq_refl). congruence.
  - exists e. split; [done|]. split.
    + by apply new_events_app.
    + rewrite Hfs. by apply mkdir_fs_not_dir.
Qed.

(** The connection of a run is closed once. *)
Lemma main_closes_once root w :
  opens_connection root w →
  closes (new_events w (main root w).2) = [length (heap w)].
Proof.
  intros Ho.
  destruct (main_connected _ _ Ho) as (w2 & st & Hmain & _ & _ & _ & Ht & _).
  cbn zeta in *. set (w3 := add_log INFO _ w2) in *.
  destruct (run_scripts_calls (length (heap w)) (setup_scripts root) w3)
    as (tr & Htr & Hcalls).
  apply closes_scripts_calls in Hcalls.
  erewrite new_events_app; last first.
  { rewrite Hmain, finish_trace, Htr, Ht. rewrite <- !app_assoc. reflexivity. }
  unfold closes in *. by rewrite omap_app, omap_app, Hcalls.
Qed.

(** C10. Whenever the run has opened its connection, [main] returns
    normally and the process ends with status 0, the setup having failed
    or not: the log of the run ends, before the record of the close, either
    with the record of the completed setup or with the error that a Script
    Runner call raised, as the runner logged it and as [main] caught and
    logged it. *)
Theorem main_returns_normally root w :
  opens_connection root w →
  let w' := (main root w).2 in
  (main root w).1 = Ok tt ∧
  (run_module root w).1 = 0%Z ∧
  ∃ l,
    new_log w w'
    = [(INFO, "Starting database setup...");
       (INFO, "Connected to database: " +:+ path_str (DB_PATH root))]
      ++ l ++ [(INFO, "Database connection closed.")] ∧
    ((∃ l0, l = l0 ++ [(INFO, "Database setup completed successfully.")]) ∨
     (∃ p e l0,
        p ∈ [drop_tables_path root; create_tables_path root; insert_records_path root] ∧
        l = l0 ++ [(ERROR, "Failed to execute " +:+ path_str p +:+ ": " +:+ exn_str e);
                   (ERROR, "Error during database setup: " +:+ exn_str e)])).
Proof.
  intros Ho w'. subst w'.
  destruct (main_connected _ _ Ho) as (w2 & st & Hmain & _ & _ & Hl & _).
  cbn zeta in *. set (w3 := add_log INFO _ w2) in *.
  set (h := length (heap w)) in *.
  destruct (run_scripts_log h (setup_scripts root) w3) as (l & Hlog & Hres).
  unfold run_module. rewrite Hmain. split; [done|]. split; [done|].
  exists (l ++ [match (run_scripts h (setup_scripts root) w3).1 with
                | Ok _ => (INFO, "Database setup completed successfully.")
                | Raise e => (ERROR, "Error during database setup: " +:+ exn_str e)
                end]).
  split.
  - apply new_log_app. rewrite finish_log, Hlog, Hl. by rewrite <- !app_assoc.
  - destruct ((run_scripts h (setup_scripts root) w3).1) as [[]|e].
    + left. by exists l.
    + right. destruct Hres as (p & l0 & Hin & ->).
      exists p, e, l0. split; [done|]. by rewrite <- app_assoc.
Qed.

(** C5, where the code departs from it. When the path of the database
    cannot be opened (it is a directory, or a file that cannot be read),
    line 51 raises before [connection] is bound, the handler logs the
    error, and the [finally] block fails on its first line with
    [UnboundLocalError]: no connection is closed, the closing record is not
    logged, and the error leaves [main]. *)
Theorem main_connect_failure_skips_close root w :
  is_dir (fs w) (DATA_FOLDER root) = true →
  db_openable (fs w) (DB_PATH root) = false →
  let w' := (main root w).2 in
  (main root w).1 = Raise unbound_connection ∧
  new_events w w' = [EvMkdir (DATA_FOLDER root); EvConnect (DB_PATH root)] ∧
  closes (new_events w w') = [] ∧
  new_log w w'
  = [(INFO, "Starting database setup...");
     (ERROR, "Error during database setup: unable to open database file")].
Proof.
  intros Hd Hdb. cbn zeta.
  assert (Hmain : main root w =
            (Raise unbound_connection,
             add_log ERROR ("Error during database setup: " +:+ exn_str unable_to_open)
               (add_event (EvConnect (DB_PATH root))
                  (add_event (EvMkdir (DATA_FOLDER root))
                     (add_log INFO "Starting database setup..." w))))).
  { rewrite main_eq, Path_mkdir_eq. cbn zeta.
    unfold is_dir in Hd.
    change (fs (add_log INFO "Starting database setup..." w)) with (fs w).
    destruct (fs w !! DATA_FOLDER root) as [[md|? ?]|] eqn:Hdata; try done.
    set (w1 := add_event (EvMkdir (DATA_FOLDER root)) _).
    pose proof (sqlite3_connect_is_ok (DB_PATH root) w1) as Hok.
    change (fs w1) with (fs w) in Hok. rewrite Hdb in Hok.
    destruct (sqlite3_connect (DB_PATH root) w1) as [[h|e] w2] eqn:Hc; [done|].
    by apply sqlite3_connect_raise in Hc as (-> & ->). }
  rewrite Hmain. cbn [fst snd].
  assert (Hev : ∀ l v, new_events w
            (add_log l v
               (add_event (EvConnect (DB_PATH root))
                  (add_event (EvMkdir (DATA_FOLDER root))
                     (add_log INFO "Starting database setup..." w))))
          = [EvMkdir (DATA_FOLDER root); EvConnect (DB_PATH root)]).
  { intros l v. apply new_events_app. cbn. by rewrite <- app_assoc. }
  rewrite Hev. repeat split; try done.
  apply new_log_app. cbn. by rewrite <- app_assoc.
Qed.



End ScriptFacts.

(* ===================================================================== *)
(** ** Further properties of the script, for every engine                 *)
(* ===================================================================== *)

Section ScriptProperties.
Context `{E : Engine}.
Implicit Types (w : world) (h : handle) (p q root : path) (e : exn) (um : N).

(** *** The Script Runner *)

Lemma execute_sql_file_heap_ne h p w h' :
  h' ≠ h → heap (execute_sql_file h p w).2 !! h' = heap w !! h'.
Proof.
  intros Hne.
  destruct ((read_sql_script p w).1) as [sql|e] eqn:Hr.
  - destruct (conn_lookup h w) as [q [s| |]] eqn:Hc.
    + rewrite (execute_sql_file_live _ _ _ _ _ _ Hr Hc). cbn zeta.
      destruct (sess_executescript sql s) as [s' [e|]]; cbn [fst snd];
        [|destruct (sess_commit s') as [s'' [e|]]; cbn [fst snd]].
      all: cbn; by rewrite !list_lookup_insert_ne.
    + rewrite (execute_sql_file_foreign _ _ _ _ _ Hr Hc). cbn zeta.
      by destruct (sess_foreign sql).
    + by rewrite (execute_sql_file_closed _ _ _ _ Hr) by by rewrite Hc.
  - by rewrite (execute_sql_file_read_fails _ _ _ _ Hr).
Qed.

Lemma run_scripts_heap_ne h ps w h' :
  h' ≠ h → heap (run_scripts h ps w).2 !! h' = heap w !! h'.
Proof.
  intros Hne. revert w. induction ps as [|p ps IH]; intros w; [done|].
  cbn [run_scripts]. unfold bind.
  pose proof (execute_sql_file_heap_ne h p w h' Hne) as H1.
  destruct (execute_sql_file h p w) as [[[]|e] w1]; cbn [fst snd] in *; [|done].
  by rewrite IH.
Qed.



(** X3. On a closed connection the Script Runner reads the file, and
    the use of the connection is refused: the error is logged and raised,
    nothing is committed, and neither the file system nor any connection
    object changes. *)
Theorem execute_sql_file_on_closed_connection h p w sql :
  conn_st (conn_lookup h w) = Closed →
  (read_sql_script p w).1 = Ok sql →
  let w' := (execute_sql_file h p w).2 in
  (execute_sql_file h p w).1 = Raise closed_database ∧
  opened (new_events w w') = [p] ∧
  (EvCommit h ∉ new_events w w') ∧
  new_log w w'
  = [(ERROR, "Failed to execute " +:+ path_str p
             +:+ ": Cannot operate on a closed database.")] ∧
  fs w' = fs w ∧
  heap w' = heap w.
Proof.
  intros Hc Hr. cbn zeta. rewrite (execute_sql_file_closed _ _ _ _ Hr Hc).
  cbn [fst snd].
  assert (Hev : new_events w
            (add_log ERROR (failed_message p closed_database) (add_event (EvOpen p) w))
          = [EvOpen p]) by by apply new_events_app.
  rewrite Hev. repeat split.
  - rewrite !elem_of_cons, elem_of_nil. by intros [|].
  - by apply new_log_app.
Qed.

(** *** The database file under the runner *)


Lemma persist_dir (q : path) (d : db) (f : gmap path node) p m :
  persist q d f !! p = Some (Dir m) ↔ f !! p = Some (Dir m).
Proof.
  destruct (decide (p = q)) as [->|Hne].
  - rewrite persist_lookup_eq. destruct (f !! q) as [[m'|m' c]|]; naive_solver.
  - by rewrite persist_lookup_ne.
Qed.



Lemma connect_fs_is_dir um q (f : gmap path node) p :
  is_dir (connect_fs um q f) p = is_dir f p.
Proof.
  unfold connect_fs, is_dir. destruct (f !! q) as [n|] eqn:Hq; [done|].
  destruct (decide (p = q)) as [->|Hne].
  - by rewrite lookup_insert_eq, Hq.
  - by rewrite lookup_insert_ne.
Qed.

Lemma connect_fs_lookup_file um q (f : gmap path node) :
  (∀ dm, f !! q ≠ Some (Dir dm)) →
  ∃ m c, connect_fs um q f !! q = Some (File m c).
Proof.
  intros Hnd. unfold connect_fs. destruct (f !! q) as [[dm|m c]|] eqn:Hq.
  - by destruct (Hnd dm).
  - rewrite Hq. eauto.
  - rewrite lookup_insert_eq. eauto.
Qed.

Lemma connect_fs_db_openable um root (f : gmap path node) :
  db_openable f (DB_PATH root) = true →
  readable (N.ldiff 420 um) = true →
  db_openable (connect_fs um (DB_PATH root) f) (DB_PATH root) = true.
Proof.
  intros Hdb Hum. revert Hdb. unfold connect_fs, db_openable, reachable, creatable.
  destruct (f !! DB_PATH root) as [n|] eqn:Hq; [by rewrite Hq|].
  assert (Hne : parent (DB_PATH root) ≠ DB_PATH root).
  { unfold DB_PATH at 1. rewrite parent_joinpath. symmetry. apply DB_PATH_ne_DATA. }
  rewrite lookup_insert_eq, lookup_insert_ne by done.
  destruct (f !! parent (DB_PATH root)) as [[pm|pm pc]|]; try done.
  rewrite Hum. by intros [_ ->]%andb_true_iff.
Qed.

Lemma main_umask root w : umask (main root w).2 = umask w.
Proof.
  rewrite main_eq.
  pose proof (Path_mkdir_frame (DATA_FOLDER root)
                (add_log INFO "Starting database setup..." w)) as (_ & _ & Hu & _).
  change (umask (add_log INFO "Starting database setup..." w)) with (umask w) in Hu.
  destruct (Path_mkdir _ _ _) as [[[]|e] w1]; cbn [fst snd] in *; [|done].
  destruct (sqlite3_connect _ _) as [[h|e] w2] eqn:Hc.
  - apply sqlite3_connect_ok in Hc as (_ & _ & _ & Hu2 & _).
    set (w3 := add_log INFO _ w2).
    destruct (run_scripts_frame h (setup_scripts root) w3) as (_ & Hu3 & _).
    cbn zeta in Hu3. unfold finish.
    destruct (run_scripts h (setup_scripts root) w3) as [[[]|e] w4];
      cbn in *; congruence.
  - apply sqlite3_connect_raise in Hc as (_ & ->). cbn. congruence.
Qed.

(** *** The calls and the records of the runner over several scripts *)

Lemma txn_calls_app tr tr' : txn_calls (tr ++ tr') = txn_calls tr ++ txn_calls tr'.
Proof. apply List.filter_app. Qed.

Lemma txn_calls_scripts_ok h ps tr :
  scripts_calls h ps true tr → txn_calls tr = repeat (EvCommit h) (length ps).
Proof.
  remember true as ok eqn:Hok.
  induction 1 as [|p ps ok tr tr' Hr _ IH|p ps tr Hr]; [done|..].
  - subst ok. rewrite txn_calls_app, IH by done. by inversion Hr.
  - done.
Qed.

Lemma txn_calls_scripts_failed h ps tr :
  scripts_calls h ps false tr → txn_calls tr ≠ repeat (EvCommit h) (length ps).
Proof.
  remember false as ok eqn:Hok.
  induction 1 as [|p ps ok tr tr' Hr _ IH|p ps tr Hr]; [done|..].
  - subst ok. rewrite txn_calls_app. inversion Hr; subst. cbn.
    intros [= H]. by apply IH.
  - inversion Hr; subst; try done. cbn. intros [= H]. by destruct ps.
Qed.

(** The records that the runner adds to the log are its own. *)
Lemma run_scripts_records h ps w :
  ∃ l, log (run_scripts h ps w).2 = log w ++ l ∧
       Forall (λ r, r.1 = ERROR ∨ ∃ p, r = (INFO, "Executed: " +:+ path_str p)) l.
Proof.
  revert w. induction ps as [|p ps IH]; intros w.
  - exists []. cbn. by rewrite app_nil_r.
  - cbn [run_scripts]. unfold bind.
    destruct (execute_sql_file_log h p w) as (l0 & Hl & Hl0).
    assert (Hall0 : Forall (λ r, r.1 = ERROR ∨ ∃ p, r = (INFO, "Executed: " +:+ path_str p)) l0).
    { destruct Hl0 as [->| ->]; [done|]. constructor; [right; by eexists | done]. }
    destruct (execute_sql_file h p w) as [[[]|e] w1]; cbn [fst snd] in *.
    + destruct (IH w1) as (l & Hl' & Hall).
      eexists. split; [by rewrite Hl', Hl, <- !app_assoc|].
      apply Forall_app. split; [done|].
      constructor; [right; by eexists | done].
    + eexists. split; [exact Hl|]. apply Forall_app. split; [done|].
      constructor; [by left | done].
Qed.

(** *** The directory step *)

(** X4. The directory step of line 47 can be repeated: once it has
    succeeded, a second call succeeds as well and changes nothing. It is
    [exist_ok=True] that makes it so: without it the second call raises
    [FileExistsError]. *)
Theorem directory_step_is_repeatable p w :
  (Path_mkdir p true w).1 = Ok tt →
  let w1 := (Path_mkdir p true w).2 in
  (Path_mkdir p true w1).1 = Ok tt ∧
  fs (Path_mkdir p true w1).2 = fs w1 ∧
  ∃ e, (Path_mkdir p false w1).1 = Raise e ∧ exn_cls e = FileExistsError.
Proof.
  intros Hok. cbn zeta.
  destruct (Path_mkdir_frame p w) as (_ & _ & _ & _ & _ & Hd).
  specialize (Hd Hok). cbn zeta in Hd.
  set (w1 := (Path_mkdir p true w).2) in *. clearbody w1.
  unfold is_dir in Hd. destruct (fs w1 !! p) as [[m|m c]|] eqn:Hp; try done.
  rewrite Path_mkdir_eq. cbn zeta. rewrite Hp. repeat split.
  unfold Path_mkdir, try_except, os_mkdir, bind, emit. cbn. rewrite Hp. cbn.
  by eexists.
Qed.

(** X5. A failure of the directory step (line 47, before the [try])
    leaves [main] uncaught: the exception is the one of [mkdir]
    ([FileExistsError] when the path holds a file, [PermissionError] when
    the directory of the script cannot be written to or searched,
    [NotADirectoryError] or [FileNotFoundError] when that directory is a
    file or is missing), the process ends with status 1, and the run has
    logged its first record and called nothing else; no connection is
    made and the file system is as it was. *)
Theorem main_directory_failure_escapes root w :
  is_dir (mkdir_fs (umask w) (DATA_FOLDER root) (fs w)) (DATA_FOLDER root) = false →
  let w' := (main root w).2 in
  (∃ e, (main root w).1 = Raise e ∧
        exn_cls e ∈ [FileExistsError; NotADirectoryError; FileNotFoundError;
                     PermissionError] ∧
        exn_cls e =
          match fs w !! DATA_FOLDER root, fs w !! root with
          | Some _, _ => FileExistsError
          | None, Some (Dir _) => PermissionError
          | None, Some (File _ _) => NotADirectoryError
          | None, None => FileNotFoundError
          end) ∧
  (run_module root w).1 = 1%Z ∧
  new_events w w' = [EvMkdir (DATA_FOLDER root)] ∧
  new_log w w' = [(INFO, "Starting database setup...")] ∧
  fs w' = fs w ∧
  heap w' = heap w.
Proof.
  intros Hd. cbn zeta. unfold run_module. rewrite main_eq, Path_mkdir_eq. cbn zeta.
  change (fs (add_log INFO "Starting database setup..." w)) with (fs w).
  revert Hd. unfold mkdir_fs, creatable, is_dir.
  assert (Hpar : parent (DATA_FOLDER root) = root) by apply parent_joinpath.
  rewrite Hpar.
  destruct (fs w !! DATA_FOLDER root) as [[m|m c]|] eqn:Hp; rewrite ?Hp; try done.
  - intros _. cbn [fst snd]. repeat split.
    + eexists. split; [done|]. cbn. split; [set_solver | done].
    + by apply new_events_app.
    + by apply new_log_app.
  - destruct (fs w !! root) as [[m|m c]|]; rewrite ?Hp; try done.
    + destruct (writable m && searchable m); rewrite ?Hp, ?lookup_insert_eq; [done|].
      intros _. cbn [fst snd]. repeat split.
      * eexists. split; [done|]. cbn. split; [set_solver | done].
      * by apply new_events_app.
      * by apply new_log_app.
    + intros _. cbn [fst snd]. repeat split.
      * eexists. split; [done|]. cbn. split; [set_solver | done].
      * by apply new_events_app.
      * by apply new_log_app.
    + intros _. cbn [fst snd]. repeat split.
      * eexists. split; [done|]. cbn. split; [set_solver | done].
      * by apply new_events_app.
      * by apply new_log_app.
Qed.

(** *** The run of [main] *)

(** X6. [main] returns normally exactly when it has opened its
    connection, which is decided by the file system alone: the data
    directory is there after the directory step, and the path of the
    database can be opened. The exit status of the process follows. *)
Theorem main_returns_iff_connected root w :
  let f1 := mkdir_fs (umask w) (DATA_FOLDER root) (fs w) in
  let ready := is_dir f1 (DATA_FOLDER root) && db_openable f1 (DB_PATH root) in
  ((main root w).1 = Ok tt ↔ opens_connection root w) ∧
  (opens_connection root w ↔ ready = true) ∧
  (run_module root w).1 = (if ready then 0 else 1)%Z.
Proof.
  cbn zeta.
  pose proof (opens_connection_iff root w) as Hiff.
  assert (Hmain : (main root w).1 = Ok tt ↔ opens_connection root w).
  { split.
    - rewrite Hiff, main_eq.
      pose proof (Path_mkdir_ok_iff (DATA_FOLDER root)
                    (add_log INFO "Starting database setup..." w)) as Hok.
      pose proof (Path_mkdir_fs (DATA_FOLDER root)
                    (add_log INFO "Starting database setup..." w)) as Hfs.
      change (fs (add_log INFO "Starting database setup..." w)) with (fs w) in Hfs, Hok.
      change (umask (add_log INFO "Starting database setup..." w)) with (umask w) in Hfs, Hok.
      destruct (Path_mkdir _ _ _) as [[[]|e] w1]; cbn [fst snd] in *; [|done].
      pose proof (sqlite3_connect_is_ok (DB_PATH root) w1) as Hc.
      rewrite Hfs in Hc.
      destruct (sqlite3_connect _ _) as [[h|e] w2]; cbn [fst snd is_ok] in *; [|done].
      intros _. split; [by apply Hok | done].
    - intros Ho. destruct (main_connected _ _ Ho) as (w2 & st & Hm & _).
      by rewrite Hm. }
  split; [exact Hmain|]. split.
  - rewrite Hiff. by rewrite andb_true_iff.
  - assert (Hrm : (run_module root w).1
                 = match (main root w).1 with Ok _ => 0%Z | Raise _ => 1%Z end).
    { unfold run_module. by destruct (main root w) as [[[]|e] w']. }
    rewrite Hrm.
    destruct (is_dir _ _ && db_openable _ _) eqn:Hr.
    + apply andb_true_iff, Hiff, Hmain in Hr. by rewrite Hr.
    + destruct ((main root w).1) as [[]|e] eqn:Hm; [|done].
      destruct Hmain as [Hmain _]. specialize (Hmain eq_refl).
      apply Hiff, andb_true_iff in Hmain. congruence.
Qed.

(** X7. A run of [main] adds at most one connection object, and leaves
    it closed; the connection objects that were there are not touched. *)
Theorem main_leaves_no_open_connection root w :
  let w' := (main root w).2 in
  (length (heap w') ≤ S (length (heap w)))%nat ∧
  (∀ h, (h < length (heap w))%nat → heap w' !! h = heap w !! h) ∧
  (∀ h c, (length (heap w) ≤ h)%nat → heap w' !! h = Some c → conn_st c = Closed).
Proof.
  cbn zeta. rewrite main_eq.
  pose proof (Path_mkdir_frame (DATA_FOLDER root)
                (add_log INFO "Starting database setup..." w)) as (Hh & _).
  change (heap (add_log INFO "Starting database setup..." w)) with (heap w) in Hh.
  destruct (Path_mkdir _ _ _) as [[[]|e] w1]; cbn [fst snd] in *.
  - destruct (sqlite3_connect _ _) as [[h0|e] w2] eqn:Hc.
    + apply sqlite3_connect_ok in Hc as (-> & Hh2 & _).
      rewrite Hh in *. set (h0 := length (heap w)) in *.
      set (w3 := add_log INFO _ w2).
      destruct (run_scripts_frame h0 (setup_scripts root) w3) as (Hlen & _).
      cbn zeta in Hlen.
      assert (Hl3 : length (heap w3) = S h0).
      { cbn. rewrite Hh2, length_app. cbn. lia. }
      rewrite finish_heap. repeat split.
      * rewrite length_alter, Hlen, Hl3. lia.
      * intros h Hlt. rewrite list_lookup_alter_ne by lia.
        rewrite run_scripts_heap_ne by lia. cbn. rewrite Hh2.
        by rewrite lookup_app_l.
      * intros h c Hge. destruct (decide (h = h0)) as [->|Hne].
        -- rewrite list_lookup_alter_eq.
           destruct (heap (run_scripts h0 (setup_scripts root) w3).2 !! h0); [|done].
           by intros [= <-].
        -- intros Hl%lookup_lt_Some. rewrite length_alter, Hlen, Hl3 in Hl. lia.
    + apply sqlite3_connect_raise in Hc as (_ & ->). cbn [fst snd].
      change (heap (add_log _ _ (add_event _ w1))) with (heap w1). rewrite Hh.
      repeat split; [lia|].
      intros h c Hge Hl%lookup_lt_Some. lia.
  - rewrite Hh. repeat split; [lia|].
    intros h c Hge Hl%lookup_lt_Some. lia.
Qed.


(** X9. When the run has its connection, the record of the completed
    setup is in its log exactly when each of the three scripts was
    committed: the transaction calls of the run are three commits. *)
Theorem main_reports_success_iff_three_commits root w :
  opens_connection root w →
  let w' := (main root w).2 in
  let h := length (heap w) in
  (INFO, "Database setup completed successfully.") ∈ new_log w w' ↔
  txn_calls (new_events w w') = [EvCommit h; EvCommit h; EvCommit h].
Proof.
  intros Ho. cbn zeta.
  destruct (main_connected _ _ Ho) as (w2 & st & Hmain & _ & _ & Hl & Ht & _).
  cbn zeta in *. set (w3 := add_log INFO _ w2) in *.
  set (h := length (heap w)) in *.
  destruct (run_scripts_calls h (setup_scripts root) w3) as (tr & Htr & Hcalls).
  destruct (run_scripts_records h (setup_scripts root) w3) as (l & Hlog & Hall).
  rewrite Hmain.
  erewrite new_events_app; last first.
  { rewrite finish_trace, Htr, Ht. rewrite <- !app_assoc. reflexivity. }
  erewrite new_log_app; last first.
  { rewrite finish_log, Hlog, Hl. rewrite <- !app_assoc. reflexivity. }
  rewrite !txn_calls_app. cbn [txn_calls List.filter is_txn_call app].
  rewrite app_nil_r.
  destruct ((run_scripts h (setup_scripts root) w3).1) as [[]|e]; cbn [is_ok] in Hcalls.
  - split; intros _.
    + by rewrite (txn_calls_scripts_ok _ _ _ Hcalls).
    + rewrite !elem_of_cons, elem_of_app, elem_of_cons. tauto.
  - split.
    + intros Hin. exfalso.
      apply elem_of_cons in Hin as [Hin|Hin]; [done|].
      apply elem_of_cons in Hin as [Hin|Hin]; [done|].
      apply elem_of_app in Hin as [Hin|Hin].
      * rewrite Forall_forall in Hall. destruct (Hall _ Hin) as [?|[p ?]]; done.
      * rewrite !elem_of_cons, elem_of_nil in Hin. by destruct Hin as [|[|]].
    + intros Heq. by apply txn_calls_scripts_failed in Hcalls.
Qed.

(** X11. A run that has opened its connection can be repeated: when the
    umask lets the owner read a file that the run creates, a second run
    opens its connection too, and its directory step creates nothing. *)
Theorem main_can_be_repeated root w :
  opens_connection root w →
  readable (N.ldiff 420 (umask w)) = true →
  let w1 := (main root w).2 in
  opens_connection root w1 ∧
  mkdir_fs (umask w1) (DATA_FOLDER root) (fs w1) = fs w1.
Proof.
  intros Ho Hum. cbn zeta.
  destruct (main_connected _ _ Ho)
    as (w2 & st & Hmain & _ & Hc & _ & _ & Hu & _ & _ & _ & Hd & Hfs).
  cbn zeta in *. set (w3 := add_log INFO _ w2) in *.
  set (h := length (heap w)) in *.
  apply opens_connection_iff in Ho as [_ Hdb].
  set (f1 := mkdir_fs (umask w) (DATA_FOLDER root) (fs w)) in *.
  assert (Hdir3 : is_dir (fs w3) (DATA_FOLDER root) = true)
    by by rewrite Hfs, connect_fs_is_dir.
  assert (Hdb3 : db_openable (fs w3) (DB_PATH root) = true)
    by (rewrite Hfs; by apply connect_fs_db_openable).
  assert (H1 : is_dir (fs (main root w).2) (DATA_FOLDER root) = true ∧
               db_openable (fs (main root w).2) (DB_PATH root) = true).
  { rewrite Hmain, finish_fs.
    destruct (run_scripts_frame h (setup_scripts root) w3) as (_ & _ & _ & Hk).
    cbn zeta in Hk. split; [by rewrite (keeps_entries_is_dir _ _ _ Hk)|].
    destruct (connect_fs_lookup_file (umask w) (DB_PATH root) f1) as (m & c & Hq).
    { intros dm Hdm. revert Hdb. unfold db_openable. by rewrite Hdm. }
    rewrite <- Hfs in Hq.
    by rewrite (keeps_entries_db_openable _ _ _ _ _ Hk Hq). }
  destruct H1 as [H1 H2].
  assert (Hm : mkdir_fs (umask (main root w).2) (DATA_FOLDER root) (fs (main root w).2)
               = fs (main root w).2) by by apply mkdir_fs_dir.
  split; [|exact Hm].
  apply opens_connection_iff. by rewrite Hm.
Qed.

End ScriptProperties.

(* ===================================================================== *)
(** ** The scripts of the repository, on MiniSQLite                       *)
(* ===================================================================== *)

Section RepositoryFacts.
Import MiniSQLite.
Implicit Types (w : world) (h : handle) (p q root : path) (d : database) (um : N).

Lemma drop_table_if_exists name d :
  drop_table false true name d = Ok (delete (lower name) d).
Proof.
  unfold drop_table. destruct (d !! lower name) eqn:Hd; [done|].
  by rewrite delete_id.
Qed.

Lemma executescript_drop_tables d :
  executescript drop_tables_sql (open_session d) = (open_session (dropped d), None).
Proof.
  unfold executescript.
  change (split_statements [] (tokenize drop_tables_sql))
    with [[TWord "DROP"; TWord "TABLE"; TWord "IF"; TWord "EXISTS"; TWord "books"];
          [TWord "DROP"; TWord "TABLE"; TWord "IF"; TWord "EXISTS"; TWord "authors"]].
  change (commit (open_session d)) with (open_session d).
  cbn [run_statements].
  change (parse [TWord "DROP"; TWord "TABLE"; TWord "IF"; TWord "EXISTS"; TWord "books"])
    with (Parsed (SDropTable true "books")).
  change (parse [TWord "DROP"; TWord "TABLE"; TWord "IF"; TWord "EXISTS"; TWord "authors"])
    with (Parsed (SDropTable true "authors")).
  cbn [exec open_session foreign_keys]. unfold on_current.
  change (current (Session d None false)) with d.
  rewrite drop_table_if_exists. change (lower "books") with "books".
  change (set_current (delete "books" d) (Session d None false))
    with (Session (delete "books" d) None false).
  cbn [foreign_keys].
  change (current (Session (delete "books" d) None false)) with (delete "books" d).
  by rewrite drop_table_if_exists.
Qed.

Lemma executescript_create_tables (s : sql_session) :
  executescript create_tables_sql s = (commit s, Some try_syntax_error).
Proof.
  unfold executescript. generalize (commit s). intros s'. vm_compute. reflexivity.
Qed.

(** What a commit leaves committed is the working copy. *)
Lemma commit_committed (s : sql_session) : committed (commit s) = current s.
Proof. unfold commit, current. by destruct s as [c [d|] fk]. Qed.

Lemma dropped_idemp d : dropped (dropped d) = dropped d.
Proof.
  unfold dropped. apply map_eq. intros k.
  rewrite !lookup_delete. by repeat case_decide.
Qed.

Lemma dropped_no_tables d : dropped d !! "authors" = None ∧ dropped d !! "books" = None.
Proof. unfold dropped. by rewrite !lookup_delete. Qed.

(** One run of the runner on MiniSQLite, with a script that the engine
    accepts: the commit of the context manager stores what the script
    did. *)
Lemma runner_step h p w q (s s' : sql_session) sql :
  (read_sql_script p w).1 = Ok sql →
  conn_lookup h w = Conn q (Live s) →
  executescript sql s = (s', None) →
  let rw := execute_sql_file h p w in
  rw.1 = Ok tt ∧
  conn_lookup h rw.2 = Conn q (Live (commit s')) ∧
  fs rw.2 = persist q (current s') (fs w) ∧
  log rw.2 = log w ++ [(INFO, "Executed: " +:+ path_str p)] ∧
  trace rw.2 = trace w ++ [EvOpen p; EvExecutescript h sql; EvCommit h].
Proof.
  intros Hr Hc He. cbn zeta.
  pose proof (conn_lookup_live_lt _ _ _ _ Hc) as Hlt.
  rewrite (execute_sql_file_live _ _ _ _ _ _ Hr Hc). cbn zeta.
  change (@sess_executescript engine sql s) with (executescript sql s). rewrite He.
  change (@sess_commit engine s') with (commit s', @None exn).
  cbn [fst snd]. repeat split.
  - apply conn_lookup_update_session. cbn. by rewrite length_insert.
  - cbn. rewrite persist_persist. by rewrite commit_committed.
  - cbn. by rewrite <- !app_assoc.
Qed.

(** The same with a script that the engine refuses. *)
Lemma runner_step_refused h p w q (s s' : sql_session) sql e :
  (read_sql_script p w).1 = Ok sql →
  conn_lookup h w = Conn q (Live s) →
  executescript sql s = (s', Some e) →
  let rw := execute_sql_file h p w in
  rw.1 = Raise e ∧
  fs rw.2 = persist q (committed s') (fs w) ∧
  log rw.2 = log w ++ [(ERROR, failed_message p e)] ∧
  trace rw.2 = trace w ++ [EvOpen p; EvExecutescript h sql; EvRollback h].
Proof.
  intros Hr Hc He. cbn zeta.
  rewrite (execute_sql_file_live _ _ _ _ _ _ Hr Hc). cbn zeta.
  change (@sess_executescript engine sql s) with (executescript sql s). rewrite He.
  cbn [fst snd]. repeat split.
  - cbn. by rewrite persist_persist.
  - cbn. by rewrite <- !app_assoc.
Qed.

(** The three scripts on a connection that [main] has just opened on a
    database [d]: the drop script is executed, the create script is
    refused at its first word, the insert script is not reached. *)
Lemma run_repo_scripts_live root h q d w :
  scripts_installed root w →
  q ≠ create_tables_path root →
  conn_lookup h w = Conn q (Live (open_session d)) →
  let rw := run_scripts h (setup_scripts root) w in
  rw.1 = Raise try_syntax_error ∧
  fs rw.2 = persist q (dropped d) (fs w) ∧
  log rw.2 = log w ++
    [(INFO, "Executed: " +:+ path_str (drop_tables_path root));
     (ERROR, failed_message (create_tables_path root) try_syntax_error)] ∧
  trace rw.2 = trace w ++
    [EvOpen (drop_tables_path root); EvExecutescript h drop_tables_sql; EvCommit h;
     EvOpen (create_tables_path root); EvExecutescript h create_tables_sql; EvRollback h].
Proof.
  intros [(m1 & Hdrop & Hm1) (m2 & Hcreate & Hm2)] Hq Hc. cbn zeta.
  assert (Hr1 : (read_sql_script (drop_tables_path root) w).1 = Ok drop_tables_sql)
    by by rewrite read_sql_script_result, Hdrop, Hm1.
  destruct (runner_step _ _ _ _ _ _ _ Hr1 Hc (executescript_drop_tables d))
    as (Ho1 & Hc1 & Hf1 & Hl1 & Ht1).
  unfold setup_scripts. rewrite (run_scripts_cons_ok _ _ _ _ Ho1).
  set (w1 := (execute_sql_file h (drop_tables_path root) w).2) in *.
  assert (Hr2 : (read_sql_script (create_tables_path root) w1).1 = Ok create_tables_sql).
  { rewrite read_sql_script_result, Hf1, persist_lookup_ne by done.
    by rewrite Hcreate, Hm2. }
  destruct (runner_step_refused _ _ _ _ _ _ _ _ Hr2 Hc1
              (executescript_create_tables _)) as (Ho2 & Hf2 & Hl2 & Ht2).
  rewrite (run_scripts_cons_raise _ _ _ _ _ Ho2). cbn [fst snd]. repeat split.
  - rewrite Hf2, Hf1, persist_persist. by rewrite !commit_committed.
  - by rewrite Hl2, Hl1, <- app_assoc.
  - by rewrite Ht2, Ht1, <- app_assoc.
Qed.

Lemma value_eqb_eq (a b : value) : value_eqb a b = true ↔ a = b.
Proof.
  destruct a, b; cbn; try (split; [discriminate | congruence]); try done.
  - rewrite Z.eqb_eq. split; congruence.
  - rewrite String.eqb_eq. split; congruence.
Qed.

Lemma existsb_false {A} (f : A → bool) (l : list A) :
  (∀ x, x ∈ l → f x = false) → existsb f l = false.
Proof.
  induction l as [|x l IH]; [done|]. intros H. cbn.
  rewrite H by left. apply IH. intros y Hy. apply H. by right.
Qed.

(** C6, as the code has it. On a database with the declared tables, the
    insert of a books row whose [author_id] is in no row of [authors] (and
    whose [book_id] is new) is refused with FOREIGN KEY constraint failed
    on a session that enforces foreign keys, and is carried out on a
    session that does not; and a session as [sqlite3.connect] opens it
    does not enforce them. *)
Theorem dangling_book_needs_foreign_keys (s : sql_session) (tb ta : table)
    (b t y a : value) :
  current s !! "books" = Some tb →
  tbl_cols tb = books_columns →
  tbl_fks tb = books_foreign_keys →
  current s !! "authors" = Some ta →
  tbl_cols ta = authors_columns →
  let b' := coerce AffText b in
  let a' := coerce AffText a in
  (b' = VNull ∨ ∀ r, r ∈ tbl_rows tb → r !! 0%nat ≠ Some b') →
  a' ≠ VNull →
  (∀ r, r ∈ tbl_rows ta → r !! 0%nat ≠ Some a') →
  let row := [b'; coerce AffText t; coerce AffInteger y; a'] in
  exec (SInsert "books" None [[b; t; y; a]]) s =
    (if foreign_keys s
     then (s, Some fk_violation)
     else (set_current
             (<["books" := Table books_columns books_foreign_keys (tbl_rows tb ++ [row])]>
                (current s)) s, None)) ∧
  ∀ d, foreign_keys (sess_open d) = false.
Proof.
  intros Hb Hbc Hbf Ha Hac b' a' Hfresh Hnn Hdangling row. split; [|done].
  cbn [exec]. unfold on_current, insert_into.
  set (d0 := current s) in *.
  change (lower "books") with "books". rewrite Hb, Hbf, Hbc.
  assert (Hfind : find (λ fk, foreign_keys s
                     && negb (bool_decide (is_Some (d0 !! lower (fk_table fk)))))
                    books_foreign_keys = None).
  { unfold books_foreign_keys. cbn [find fk_table].
    change (lower "authors") with "authors". rewrite Ha.
    rewrite bool_decide_eq_true_2 by by eexists.
    by rewrite andb_false_r. }
  rewrite Hfind.
  assert (Hins : insert_rows "books" books_columns None (tbl_rows tb) [[b; t; y; a]]
                 = Ok (tbl_rows tb ++ [row])).
  { cbn [insert_rows arrange length books_columns Nat.eqb].
    change (coerce_row books_columns [b; t; y; a]) with row.
    assert (Hchk : check_columns "books" books_columns 0 (tbl_rows tb) row = None).
    { cbn [check_columns books_columns col_notnull col_unique andb row
             lookup list_lookup default]. cbn [row lookup list_lookup].
      replace (negb (value_eqb b' VNull)
               && existsb (λ r, value_eqb (default VNull (r !! 0%nat)) b') (tbl_rows tb))
        with false; [done|].
      symmetry. destruct (value_eqb b' VNull) eqn:Hn; [done|]. cbn [negb andb].
      apply existsb_false. intros r Hr.
      destruct Hfresh as [Hnull | Hfresh]; [by rewrite Hnull in Hn|].
      specialize (Hfresh r Hr).
      destruct (value_eqb (default VNull (r !! 0%nat)) b') eqn:Heq; [|done].
      apply value_eqb_eq in Heq. destruct (r !! 0%nat) as [v|].
      - change (v = b') in Heq. by rewrite Heq in Hfresh.
      - change (VNull = b') in Heq. apply eq_sym, value_eqb_eq in Heq. congruence. }
    by rewrite Hchk. }
  rewrite Hins. cbn zeta. rewrite drop_app_length.
  assert (Hfk : rows_fk_ok
                  (<["books" := Table books_columns books_foreign_keys (tbl_rows tb ++ [row])]> d0)
                  tb [row] = false).
  { unfold rows_fk_ok. rewrite Hbf, Hbc. unfold books_foreign_keys. cbn [forallb].
    unfold fk_row_ok. cbn [fk_col fk_table fk_parent_col].
    change (field books_columns "author_id" row) with (Some a').
    change (lower "authors") with "authors".
    rewrite lookup_insert_ne by done. rewrite Ha, Hac.
    assert (Hex : existsb
              (λ r, match field authors_columns "author_id" r with
                    | Some v' => value_eqb v' a'
                    | None => false
                    end) (tbl_rows ta) = false).
    { apply existsb_false. intros r Hr. specialize (Hdangling r Hr).
      change (field authors_columns "author_id" r) with (r !! 0%nat).
      destruct (r !! 0%nat) as [v|]; [|done].
      destruct (value_eqb v a') eqn:Heq; [|done].
      apply value_eqb_eq in Heq. by subst. }
    rewrite Hex. by destruct a'. }
  rewrite Hfk. by destruct (foreign_keys s).
Qed.
Lemma db_content_connect_state (f : gmap path node) q d :
  db_content f q = Some d → connect_state (f !! q) = Live (open_session d).
Proof.
  unfold db_content, connect_state.
  destruct (f !! q) as [[m|m [s|d']]|]; try done.
  - destruct (readable m); [|done]. cbn. destruct (String.eqb s EmptyString); [|done].
    by intros [= <-].
  - destruct (readable m); [|done]. by intros [= <-].
  - by intros [= <-].
Qed.

(** *** The whole cycle, with scripts that the engine accepts *)







Lemma scripts_installed_ext root w v :
  fs v !! drop_tables_path root = fs w !! drop_tables_path root →
  fs v !! create_tables_path root = fs w !! create_tables_path root →
  scripts_installed root w → scripts_installed root v.
Proof. unfold scripts_installed. by intros -> ->. Qed.

(** C1, where the code departs from it. With the scripts of the source
    file, on a fresh target or on an existing database [d], the create
    script is refused at its first word: the run logs the syntax error
    and never the completed setup, the insert script is not opened, and
    the database file is left with [d] less the two tables, so with
    neither [authors] nor [books]. *)
Theorem create_script_is_rejected root w d :
  scripts_installed root w →
  opens_connection root w →
  db_content (fs w) (DB_PATH root) = Some d →
  let w' := (main root w).2 in
  new_log w w'
  = [(INFO, "Starting database setup...");
     (INFO, "Connected to database: " +:+ path_str (DB_PATH root));
     (INFO, "Executed: " +:+ path_str (drop_tables_path root));
     (ERROR, "Failed to execute " +:+ path_str (create_tables_path root) +:+ ": "
             +:+ exn_str try_syntax_error);
     (ERROR, "Error during database setup: " +:+ exn_str try_syntax_error);
     (INFO, "Database connection closed.")] ∧
  opened (new_events w w') = [drop_tables_path root; create_tables_path root] ∧
  (∃ m, fs w' !! DB_PATH root = Some (File m (Database (dropped d)))) ∧
  dropped d !! "authors" = None ∧ dropped d !! "books" = None.
Proof.
  intros Hs Ho Hd w'. subst w'.
  destruct (main_connected _ _ Ho)
    as (w2 & st & Hmain & _ & Hc & Hl & Ht & _ & Hf & _ & -> & _ & Hfs).
  cbn zeta in *. set (w3 := add_log INFO _ w2) in *.
  set (h := length (heap w)) in *.
  rewrite (db_content_connect_state _ _ _ Hd) in Hc.
  assert (Hs3 : scripts_installed root w3).
  { eapply scripts_installed_ext; [| |exact Hs]; apply Hf;
      (apply script_ne_DB || apply script_ne_DATA). }
  assert (Hne : DB_PATH root ≠ create_tables_path root)
    by (symmetry; apply script_ne_DB).
  destruct (run_repo_scripts_live _ _ _ _ _ Hs3 Hne Hc) as (Hr & Hfr & Hlr & Htr).
  rewrite Hmain. clearbody w3.
  destruct (run_scripts h (setup_scripts root) w3) as [r w4]. cbn [fst snd] in *. subst r.
  repeat split.
  - apply new_log_app. rewrite finish_log. cbn [fst snd]. rewrite Hlr, Hl.
    by rewrite <- !app_assoc.
  - erewrite new_events_app; last first.
    { rewrite finish_trace. cbn [snd]. rewrite Htr, Ht. rewrite <- !app_assoc. reflexivity. }
    done.
  - rewrite finish_fs. cbn [snd]. rewrite Hfr, persist_lookup_eq, Hfs.
    unfold connect_fs. rewrite mkdir_fs_lookup_ne by apply DB_PATH_ne_DATA.
    revert Hd. unfold db_content.
    destruct (fs w !! DB_PATH root) as [[m|m [s|d']]|] eqn:Hdb; try done.
    + intros _. rewrite mkdir_fs_lookup_ne by apply DB_PATH_ne_DATA. rewrite Hdb. eauto.
    + intros _. rewrite mkdir_fs_lookup_ne by apply DB_PATH_ne_DATA. rewrite Hdb. eauto.
    + intros _. rewrite lookup_insert_eq. eauto.
  - apply dropped_no_tables.
  - apply dropped_no_tables.
Qed.
(** *** The engine on the statements of the source file *)

(** The concrete scenario of section 8, on the declared schema. *)
Lemma seed_rows_stored :
  let s := (executescript seed_sql (open_session declared_schema)).1 in
  tbl_rows <$> committed s !! "authors"
    = Some [[VText "A1"; VText "Jane"; VText "Austen"; VInt 1775]] ∧
  tbl_rows <$> committed s !! "books"
    = Some [[VText "B1"; VText "Emma"; VInt 1815; VText "A1"]].
Proof. vm_compute. repeat split; (reflexivity || discriminate). Qed.

(** With the stray lines of the create script taken out, a run completes
    and stores the two tables with the seed rows, and a second run leaves
    the same rows. *)
Lemma repaired_scripts_complete :
  let w1 := (main root0 repaired_world).2 in
  let w2 := (main root0 w1).2 in
  (main root0 repaired_world).1 = Ok tt ∧
  last (log w1) = Some (INFO, "Database connection closed.") ∧
  (INFO, "Database setup completed successfully.") ∈ log w1 ∧
  table_rows (fs w1) (DB_PATH root0) "authors"
    = Some [[VText "A1"; VText "Jane"; VText "Austen"; VInt 1775]] ∧
  table_rows (fs w1) (DB_PATH root0) "books"
    = Some [[VText "B1"; VText "Emma"; VInt 1815; VText "A1"]] ∧
  table_rows (fs w2) (DB_PATH root0) "authors"
    = table_rows (fs w1) (DB_PATH root0) "authors" ∧
  table_rows (fs w2) (DB_PATH root0) "books"
    = table_rows (fs w1) (DB_PATH root0) "books".
Proof.
  cbn zeta. repeat split; try (vm_compute; reflexivity).
  vm_compute. do 5 right. left.
Qed.

(** A statement that fails leaves the session as it was. *)
Lemma exec_failure_changes_nothing st (s s' : sql_session) e :
  exec st s = (s', Some e) → s' = s.
Proof.
  destruct st; cbn [exec]; unfold on_current.
  - destruct (pending s); by intros [= <-].
  - destruct (pending s); by intros [= <-].
  - destruct (pending s); by intros [= <-].
  - destruct (pending s); by intros [=].
  - destruct (drop_table _ _ _ _); by intros [= <-].
  - destruct (create_table _ _ _ _ _); by intros [= <-].
  - destruct (insert_into _ _ _ _ _); by intros [= <-].
Qed.

(** On the scripts of the repository the runner commits after the drop
    script and rolls back after the create script. *)
Lemma runner_calls_on_repo_scripts :
  txn_calls (new_events connected_world
               (execute_sql_file 0 (drop_tables_path root0) connected_world).2)
  = [EvCommit 0] ∧
  txn_calls (new_events connected_world
               (execute_sql_file 0 (create_tables_path root0) connected_world).2)
  = [EvRollback 0].
Proof. vm_compute. split; reflexivity. Qed.
(** Against C6 as stated: through a connection opened as [main] opens
    it, on a database with the declared tables, the insert of a books row
    whose author is in no row of [authors] is accepted and the row stored. *)
Lemma dangling_book_accepted :
  let rw := execute_sql_file 0 dangling_insert_path dangling_world in
  rw.1 = Ok tt ∧
  table_rows (fs rw.2) (DB_PATH root0) "books"
    = Some [[VText "B1"; VText "Emma"; VInt 1815; VText "A9"]] ∧
  table_rows (fs rw.2) (DB_PATH root0) "authors" = Some [].
Proof. vm_compute. repeat split; (reflexivity || discriminate). Qed.

(** Against C7 as stated: on a script that leaves its transaction open,
    the runner issues a [commit] of its own after the batch, and it is
    this commit that stores the table: after the bare [executescript] call
    the table is not in the file. *)
Lemma runner_issues_commit :
  let w' := (execute_sql_file 0 pending_create_path pending_world).2 in
  txn_calls (new_events pending_world w') = [EvCommit 0] ∧
  table_rows (fs w') (DB_PATH root0) "t" = Some [] ∧
  table_rows (fs (conn_executescript 0 pending_create_sql pending_world).2)
    (DB_PATH root0) "t" = None.
Proof. vm_compute. repeat split; reflexivity. Qed.

(** *** The theorems at work on the checkout *)

Lemma scripts_installed_fresh_world : scripts_installed root0 fresh_world.
Proof. split; exists 420%N; split; reflexivity. Defined.

Lemma opens_connection_fresh_world : opens_connection root0 fresh_world.
Proof. unfold opens_connection. vm_compute. lia. Defined.

Lemma file_error_submits_nothing_witness :
  (read_sql_script (drop_tables_path root0) no_drop_script_world).1
  = Raise (Exn FileNotFoundError
             (errno_msg "[Errno 2] No such file or directory" (drop_tables_path root0))) ∧
  fs (execute_sql_file 0 (drop_tables_path root0) no_drop_script_world).2
  = fs no_drop_script_world.
Proof.
  assert (H : (read_sql_script (drop_tables_path root0) no_drop_script_world).1
              = Raise (Exn FileNotFoundError
                         (errno_msg "[Errno 2] No such file or directory"
                            (drop_tables_path root0)))) by reflexivity.
  split; [exact H|].
  apply (file_error_submits_nothing 0 _ _ _ H).
Defined.

Lemma main_runs_scripts_in_order_witness :
  opens_connection root0 no_drop_script_world ∧
  ∃ ok tr,
    new_events no_drop_script_world (main root0 no_drop_script_world).2
    = [EvMkdir (DATA_FOLDER root0); EvConnect (DB_PATH root0)] ++ tr ++ [EvClose 0] ∧
    scripts_calls 0 [drop_tables_path root0; create_tables_path root0;
                     insert_records_path root0] ok tr ∧
    tr = [EvOpen (drop_tables_path root0)].
Proof.
  assert (Ho : opens_connection root0 no_drop_script_world)
    by (unfold opens_connection; vm_compute; lia).
  split; [exact Ho|].
  destruct (main_runs_scripts_in_order root0 no_drop_script_world Ho)
    as (ok & tr & H1 & H2 & _ & H4).
  exists ok, tr. split; [exact H1|]. split; [exact H2|].
  apply H4. reflexivity.
Defined.

Lemma main_returns_normally_witness :
  opens_connection root0 fresh_world ∧
  (main root0 fresh_world).1 = Ok tt ∧
  (run_module root0 fresh_world).1 = 0%Z.
Proof.
  split; [exact opens_connection_fresh_world|].
  destruct (main_returns_normally root0 fresh_world opens_connection_fresh_world)
    as (H1 & H2 & _).
  split; [exact H1 | exact H2].
Defined.

Lemma main_connect_failure_witness :
  is_dir (fs blocked_world) (DATA_FOLDER root0) = true ∧
  db_openable (fs blocked_world) (DB_PATH root0) = false ∧
  (main root0 blocked_world).1 = Raise unbound_connection ∧
  closes (new_events blocked_world (main root0 blocked_world).2) = [].
Proof.
  assert (H1 : is_dir (fs blocked_world) (DATA_FOLDER root0) = true) by reflexivity.
  assert (H2 : db_openable (fs blocked_world) (DB_PATH root0) = false) by reflexivity.
  destruct (main_connect_failure_skips_close root0 blocked_world H1 H2)
    as (H3 & _ & H4 & _).
  exact (conj H1 (conj H2 (conj H3 H4))).
Defined.





Lemma create_script_is_rejected_witness :
  scripts_installed root0 fresh_world ∧
  opens_connection root0 fresh_world ∧
  db_content (fs fresh_world) (DB_PATH root0) = Some ∅ ∧
  opened (new_events fresh_world (main root0 fresh_world).2)
  = [drop_tables_path root0; create_tables_path root0] ∧
  ∃ m, fs (main root0 fresh_world).2 !! DB_PATH root0
       = Some (File m (Database (dropped ∅))).
Proof.
  assert (Hd : db_content (fs fresh_world) (DB_PATH root0) = Some ∅) by reflexivity.
  destruct (create_script_is_rejected root0 fresh_world ∅
              scripts_installed_fresh_world opens_connection_fresh_world Hd)
    as (_ & H2 & H3 & _).
  exact (conj scripts_installed_fresh_world
           (conj opens_connection_fresh_world (conj Hd (conj H2 H3)))).
Defined.

Lemma dangling_book_needs_foreign_keys_witness :
  let s := Session declared_schema None true in
  exec (SInsert "books" None [[VText "B1"; VText "Emma"; VInt 1815; VText "A9"]]) s
  = (s, Some fk_violation).
Proof.
  intros s.
  refine (proj1 (dangling_book_needs_foreign_keys s
            (Table books_columns books_foreign_keys [])
            (Table authors_columns [] [])
            (VText "B1") (VText "Emma") (VInt 1815) (VText "A9") _ _ _ _ _ _ _ _)).
  - reflexivity.
  - reflexivity.
  - reflexivity.
  - reflexivity.
  - reflexivity.
  - right. intros r Hr. by apply elem_of_nil in Hr.
  - discriminate.
  - intros r Hr. by apply elem_of_nil in Hr.
Defined.
End RepositoryFacts.

(* ===================================================================== *)
(** ** Further properties of the SQL of the source file, on MiniSQLite    *)
(* ===================================================================== *)

Section RepositoryProperties.
Import MiniSQLite.
Implicit Types (w : world) (h : handle) (p q root : path) (d : database) (um : N)
  (s : sql_session).

Lemma commit_eq s : commit s = Session (current s) None (foreign_keys s).
Proof. unfold commit, current. by destruct s as [c [d|] fk]. Qed.

(** *** The CREATE TABLE statements *)

Lemma run_statements_parsed stmts s :
  Forall (λ ts, ts ≠ []) stmts →
  run_statements stmts s = run_parsed (map parse stmts) s.
Proof.
  intros Hall. revert s. induction Hall as [|ts stmts Hne _ IH]; intros s; [done|].
  cbn [run_statements run_parsed map]. destruct ts as [|t ts]; [done|].
  destruct (parse (t :: ts)); try done.
  destruct (exec st s) as [s' [e|]]; [done|]. apply IH.
Qed.

Lemma create_statements_parsed :
  map parse (split_statements [] (tokenize (create_authors_sql +:+ create_books_sql)))
  = [Parsed (SCreateTable false "authors" authors_columns []);
     Parsed (SCreateTable false "books" books_columns books_foreign_keys)].
Proof. vm_compute. reflexivity. Qed.

Lemma create_statements_nonempty :
  Forall (λ ts : list token, ts ≠ [])
    (split_statements [] (tokenize (create_authors_sql +:+ create_books_sql))).
Proof. vm_compute. repeat constructor; discriminate. Qed.

Lemma create_authors_fresh d :
  d !! "authors" = None →
  create_table false "authors" authors_columns [] d
  = Ok (<["authors" := Table authors_columns [] []]> d).
Proof.
  intros Hd. unfold create_table. change (lower "authors") with "authors".
  by rewrite Hd.
Qed.

Lemma create_books_fresh d :
  d !! "books" = None →
  create_table false "books" books_columns books_foreign_keys d
  = Ok (<["books" := Table books_columns books_foreign_keys []]> d).
Proof.
  intros Hd. unfold create_table. change (lower "books") with "books".
  by rewrite Hd.
Qed.

Lemma executescript_create_statements s :
  executescript (create_authors_sql +:+ create_books_sql) s =
  match exec (SCreateTable false "authors" authors_columns []) (commit s) with
  | (s1, None) => exec (SCreateTable false "books" books_columns books_foreign_keys) s1
  | (s1, Some e) => (s1, Some e)
  end.
Proof.
  unfold executescript.
  rewrite (run_statements_parsed _ _ create_statements_nonempty), create_statements_parsed.
  cbn [run_parsed].
  destruct (exec _ (commit s)) as [s1 [e|]]; [done|].
  by destruct (exec _ s1) as [s2 [e|]].
Qed.

(** X13. The two CREATE TABLE statements of the source file (lines 74-79
    and 86-92). On a database that has neither table they add the two
    tables as declared, empty, and keep the other tables; as they are
    written without IF NOT EXISTS, on a database that has [authors] the
    first one is refused and nothing is changed. *)
Theorem create_statements_on_database d fk :
  let sql := create_authors_sql +:+ create_books_sql in
  (d !! "authors" = None → d !! "books" = None →
     executescript sql (Session d None fk)
     = (Session (<["books" := Table books_columns books_foreign_keys []]>
                   (<["authors" := Table authors_columns [] []]> d)) None fk, None)) ∧
  (∀ t, d !! "authors" = Some t →
     executescript sql (Session d None fk)
     = (Session d None fk, Some (Exn OperationalError "table authors already exists"))).
Proof.
  cbn zeta. split.
  - intros Ha Hb. rewrite executescript_create_statements.
    change (commit (Session d None fk)) with (Session d None fk).
    cbn [exec]. unfold on_current.
    change (current (Session d None fk)) with d.
    rewrite (create_authors_fresh _ Ha).
    change (set_current ?x (Session d None fk)) with (Session x None fk).
    cbn [pending committed current default].
    change (current (Session ?x None fk)) with x.
    rewrite create_books_fresh; [done|].
    by rewrite lookup_insert_ne.
  - intros t Ha. rewrite executescript_create_statements.
    change (commit (Session d None fk)) with (Session d None fk).
    cbn [exec]. unfold on_current.
    change (current (Session d None fk)) with d.
    unfold create_table at 1. change (lower "authors") with "authors". by rewrite Ha.
Qed.

(** *** The context manager *)

(** X15. The context manager of line 27 leaves no transaction open. When
    the script was read and the connection is open, the connection is
    afterwards open with no pending transaction: on success everything the
    script did is committed, a transaction that it left open included; on
    failure what it had committed stays and only an open transaction is
    discarded. *)
Theorem runner_leaves_no_transaction h p w q s sql :
  conn_lookup h w = Conn q (Live s) →
  (read_sql_script p w).1 = Ok sql →
  let r := execute_sql_file h p w in
  let s1 := (executescript sql s).1 in
  ∃ s', conn_lookup h r.2 = Conn q (Live s') ∧
        pending s' = None ∧
        foreign_keys s' = foreign_keys s1 ∧
        committed s' = if is_ok r.1 then current s1 else committed s1.
Proof.
  intros Hc Hr. cbn zeta.
  pose proof (conn_lookup_live_lt _ _ _ _ Hc) as Hlt.
  rewrite (execute_sql_file_live _ _ _ _ _ _ Hr Hc). cbn zeta.
  change (@sess_executescript engine sql s) with (executescript sql s).
  destruct (executescript sql s) as [s1 [e|]]; cbn [fst snd is_ok].
  - exists (rollback s1). split; [|done].
    rewrite conn_lookup_add_log. apply conn_lookup_update_session.
    cbn. by rewrite length_insert.
  - change (@sess_commit engine s1) with (commit s1, @None exn). cbn [fst snd is_ok].
    exists (commit s1). split.
    + apply conn_lookup_update_session. cbn. by rewrite length_insert.
    + rewrite commit_eq. done.
Qed.

(** *** A file that is not a database *)



(** *** The properties at work on the checkout *)




Lemma execute_sql_file_on_closed_connection_witness :
  conn_st (conn_lookup 0 closed_world) = Closed ∧
  (execute_sql_file 0 (drop_tables_path root0) closed_world).1 = Raise closed_database ∧
  fs (execute_sql_file 0 (drop_tables_path root0) closed_world).2 = fs closed_world.
Proof.
  assert (H1 : conn_st (conn_lookup 0 closed_world) = Closed) by reflexivity.
  assert (H2 : (read_sql_script (drop_tables_path root0) closed_world).1
               = Ok drop_tables_sql) by reflexivity.
  destruct (execute_sql_file_on_closed_connection 0 _ _ _ H1 H2)
    as (H3 & _ & _ & _ & H4 & _).
  exact (conj H1 (conj H3 H4)).
Defined.

Lemma directory_step_is_repeatable_witness :
  (Path_mkdir (DATA_FOLDER root0) true fresh_world).1 = Ok tt ∧
  (Path_mkdir (DATA_FOLDER root0) true
     (Path_mkdir (DATA_FOLDER root0) true fresh_world).2).1 = Ok tt ∧
  ∃ e, (Path_mkdir (DATA_FOLDER root0) false
          (Path_mkdir (DATA_FOLDER root0) true fresh_world).2).1 = Raise e ∧
       exn_cls e = FileExistsError.
Proof.
  assert (H1 : (Path_mkdir (DATA_FOLDER root0) true fresh_world).1 = Ok tt) by reflexivity.
  destruct (directory_step_is_repeatable (DATA_FOLDER root0) fresh_world H1)
    as (H2 & _ & H3).
  exact (conj H1 (conj H2 H3)).
Defined.

Lemma main_directory_failure_escapes_witness :
  is_dir (mkdir_fs (umask occupied_world) (DATA_FOLDER root0) (fs occupied_world))
    (DATA_FOLDER root0) = false ∧
  (run_module root0 occupied_world).1 = 1%Z ∧
  new_events occupied_world (main root0 occupied_world).2 = [EvMkdir (DATA_FOLDER root0)] ∧
  heap (main root0 occupied_world).2 = heap occupied_world.
Proof.
  assert (H1 : is_dir (mkdir_fs (umask occupied_world) (DATA_FOLDER root0)
                         (fs occupied_world)) (DATA_FOLDER root0) = false) by reflexivity.
  destruct (main_directory_failure_escapes root0 occupied_world H1)
    as (_ & H2 & H3 & _ & _ & H4).
  exact (conj H1 (conj H2 (conj H3 H4))).
Defined.

Lemma main_reports_success_iff_three_commits_witness :
  opens_connection root0 fresh_world ∧
  ((INFO, "Database setup completed successfully.")
     ∈ new_log fresh_world (main root0 fresh_world).2 ↔
   txn_calls (new_events fresh_world (main root0 fresh_world).2)
   = [EvCommit 0; EvCommit 0; EvCommit 0]).
Proof.
  split; [exact opens_connection_fresh_world|].
  apply (main_reports_success_iff_three_commits root0 fresh_world
           opens_connection_fresh_world).
Defined.


Lemma main_can_be_repeated_witness :
  opens_connection root0 fresh_world ∧
  readable (N.ldiff 420 (umask fresh_world)) = true ∧
  opens_connection root0 (main root0 fresh_world).2.
Proof.
  assert (H1 : readable (N.ldiff 420 (umask fresh_world)) = true) by reflexivity.
  destruct (main_can_be_repeated root0 fresh_world opens_connection_fresh_world H1)
    as (H2 & _).
  exact (conj opens_connection_fresh_world (conj H1 H2)).
Defined.

Lemma create_statements_on_database_witness :
  executescript (create_authors_sql +:+ create_books_sql) (Session ∅ None false)
  = (Session declared_schema None false, None) ∧
  executescript (create_authors_sql +:+ create_books_sql)
    (Session declared_schema None false)
  = (Session declared_schema None false,
     Some (Exn OperationalError "table authors already exists")).
Proof.
  split.
  - apply (proj1 (create_statements_on_database ∅ false)); reflexivity.
  - apply (proj2 (create_statements_on_database declared_schema false)
             (Table authors_columns [] [])).
    reflexivity.
Defined.

Lemma runner_leaves_no_transaction_witness :
  conn_lookup 0 pending_world = Conn (DB_PATH root0) (Live (open_session declared_schema)) ∧
  ∃ s', conn_lookup 0 (execute_sql_file 0 pending_create_path pending_world).2
        = Conn (DB_PATH root0) (Live s') ∧
        pending s' = None.
Proof.
  assert (H1 : conn_lookup 0 pending_world
               = Conn (DB_PATH root0) (Live (open_session declared_schema)))
    by reflexivity.
  assert (H2 : (read_sql_script pending_create_path pending_world).1
               = Ok pending_create_sql) by reflexivity.
  destruct (runner_leaves_no_transaction 0 _ _ _ _ _ H1 H2) as (s' & H3 & H4 & _).
  split; [exact H1|]. exists s'. exact (conj H3 H4).
Defined.

End RepositoryProperties.
